(** * MILBench: the simulation core of the shape-pushing benchmark

    A shallow embedding of [milbench/entities.py], [milbench/gym_render.py]
    and [milbench/base_env.py], with the key decoding of
    [milbench/__main__.py], and the properties of the step / reset /
    render contract proved about it.

    Conventions.
    - Python [int] is [Z]; Python [float] is [Q] with exact arithmetic (the
      rounding of IEEE doubles is not modelled; every property below is
      about order and case analysis, not about rounding).
    - A call that can raise returns [Result]; the exceptions are the Python
      exception classes the modelled code raises.
    - pymunk (physics) and pyglet (rasterisation) are external: the physics
      integrator, the rotation vector of a body and the colour buffer read
      back from the window are parameters of the development.
    - An entity is modelled in two stages, as the classes have them: the
      object built by [__init__] ([en.Robot.Init], [en.Shape.Init],
      [en.ArenaBoundaries.t]) and the live object once [setup] has created
      its bodies, joints and drawables ([en.Robot.t], [en.Shape.t]).  The
      entity list of an environment holds live objects.
    - [_robot] is a reference into the entity list: the robot an action is
      applied to is the object the physics loop updates. *)

From Stdlib Require Import ZArith QArith Qabs Qminmax Lqa Lia List String.
From Stdlib.Strings Require Import Byte.
From stdpp Require Import gmap strings list.

Close Scope Q_scope.
Local Open Scope Z_scope.

(** ** Python exceptions and results *)

Inductive Exn : Set :=
| TypeError
| KeyError
| AttributeError
| AssertionError
| NotImplementedError
| ZeroDivisionError
| ValueError.

Inductive Result (A : Type) : Type :=
| Ok (a : A)
| Raise (e : Exn).

Arguments Ok {A} a.
Arguments Raise {A} e.

#[global] Instance Result_ret : MRet Result := fun _ a => Ok a.

#[global] Instance Result_bind : MBind Result := fun _ _ k m =>
  match m with
  | Ok a => k a
  | Raise e => Raise e
  end.

(** [assert b] *)
Definition py_assert (b : bool) : Result unit :=
  if b then Ok tt else Raise AssertionError.

(** Use an equation [m = Ok a] at the head of a sequence of binds. *)
Ltac ok_step H := rewrite H; cbn [mbind Result_bind].

(** ** Floats as rationals *)

(** [a < b] on floats, as a boolean ([Qle_bool] is the library's [<=]). *)
Definition Qlt_bool (a b : Q) : bool := negb (Qle_bool b a).

(** Python's two-argument [min] and [max]: the first argument is kept
    unless the second is strictly smaller (resp. larger). *)
Definition py_min (a b : Q) : Q := if Qlt_bool b a then b else a.
Definition py_max (a b : Q) : Q := if Qlt_bool a b then b else a.

(** [math.pi], the double nearest to pi, as the rational it is. *)
Definition math_pi : Q := 884279719003555 # 281474976710656.

(** A 2-vector ([pymunk.vec2d.Vec2d], or a Python pair of floats). *)
Definition Vec2d : Type := (Q * Q)%type.

(** [Vec2d.cpvrotate]: complex multiplication of the two vectors. *)
Definition cpvrotate (v w : Vec2d) : Vec2d :=
  ((fst v * fst w - snd v * snd w)%Q, (fst v * snd w + snd v * fst w)%Q).

Definition vadd (v w : Vec2d) : Vec2d := ((fst v + fst w)%Q, (snd v + snd w)%Q).
Definition vsub (v w : Vec2d) : Vec2d := ((fst v - fst w)%Q, (snd v - snd w)%Q).
Definition vscale (k : Q) (v : Vec2d) : Vec2d := ((k * fst v)%Q, (k * snd v)%Q).

(** ** gym_render.py: the viewer *)

Module gym_render.

(** [Transform]: the attribute a drawable carries for its pose. *)
Record Transform : Type := {
  translation : Vec2d;
  rotation : Q;
  scale : Vec2d
}.

(** [Transform(translation=(0.0, 0.0), rotation=0.0, scale=(1, 1))] *)
Definition Transform_init (translation : Vec2d) (rotation : Q)
    (scale : Vec2d) : Transform :=
  {| translation := translation; rotation := rotation; scale := scale |}.

Definition Transform_default : Transform :=
  Transform_init (0, 0)%Q 0%Q (1, 1)%Q.

Definition set_translation (t : Transform) (newx newy : Q) : Transform :=
  {| translation := (newx, newy); rotation := rotation t; scale := scale t |}.

Definition set_rotation (t : Transform) (new : Q) : Transform :=
  {| translation := translation t; rotation := new; scale := scale t |}.

(** A drawable registered with the viewer.  What it draws is OpenGL's
    business; the model keeps the name of the primitive. *)
Record Geom : Type := { geom_name : string }.

(** The colour buffer pyglet hands back: its own height and width, and
    the RGBA bytes of [get_image_data().data], bottom row first. *)
Record ColorBuffer : Type := {
  buf_height : nat;
  buf_width : nat;
  buf_data : list byte
}.

(** A [uint8] array of three axes, rows first. *)
Abbreviation Array3 := (list (list (list byte))).

Record Viewer : Type := {
  width : Z;
  height : Z;
  window_visible : bool;
  isopen : bool;
  geoms : list Geom;
  onetime_geoms : list Geom;
  transform : Transform
}.

(** [Viewer.__init__(width, height, visible)] (never a slave here). *)
Definition Viewer_init (width height : Z) (visible : bool) : Viewer :=
  {| width := width; height := height; window_visible := visible;
     isopen := true; geoms := []; onetime_geoms := [];
     transform := Transform_default |}.

Definition reset_geoms (self : Viewer) : Viewer :=
  {| width := width self; height := height self;
     window_visible := window_visible self; isopen := isopen self;
     geoms := []; onetime_geoms := []; transform := transform self |}.

Definition add_geom (self : Viewer) (geom : Geom) : Viewer :=
  {| width := width self; height := height self;
     window_visible := window_visible self; isopen := isopen self;
     geoms := geoms self ++ [geom]; onetime_geoms := onetime_geoms self;
     transform := transform self |}.

Definition set_visible (self : Viewer) (visible : bool) : Viewer :=
  {| width := width self; height := height self;
     window_visible := visible; isopen := isopen self;
     geoms := geoms self; onetime_geoms := onetime_geoms self;
     transform := transform self |}.

Definition set_bounds (self : Viewer) (left right bottom top : Q)
    : Result Viewer :=
  _ ← py_assert (Qlt_bool left right && Qlt_bool bottom top);
  let scalex := (inject_Z (width self) / (right - left))%Q in
  let scaley := (inject_Z (height self) / (top - bottom))%Q in
  Ok {| width := width self; height := height self;
        window_visible := window_visible self; isopen := isopen self;
        geoms := geoms self; onetime_geoms := onetime_geoms self;
        transform := Transform_init ((- left * scalex)%Q, (- bottom * scaley)%Q)
                                    0%Q (scalex, scaley) |}.

(** [k] consecutive pieces of [n] elements each. *)
Fixpoint chunks {A : Type} (k n : nat) (l : list A) : list (list A) :=
  match k with
  | O => []
  | S k' => take n l :: chunks k' n (drop n l)
  end.

(** [np.frombuffer(data, dtype=np.uint8).reshape(h, w, 4)] *)
Definition reshape_hw4 (h w : nat) (data : list byte) : Result Array3 :=
  if (length data =? h * w * 4)%nat
  then Ok (chunks w 4 <$> chunks h (w * 4) data)
  else Raise ValueError.

(** [arr[::-1, :, 0:3]] *)
Definition flip_rgb (arr : Array3) : Array3 :=
  (fun row : list (list byte) => take 3 <$> row) <$> reverse arr.

Inductive RenderReturn : Type :=
| RArray (arr : Array3)
| RIsOpen (b : bool).

(** [Viewer.render(return_rgb_array)].  [buffer] is the colour buffer
    that the window holds once every geom has been drawn. *)
Definition render (self : Viewer) (buffer : ColorBuffer)
    (return_rgb_array : bool) : Result (RenderReturn * Viewer) :=
  arr ← (if return_rgb_array
         then arr ← reshape_hw4 (buf_height buffer) (buf_width buffer)
                                 (buf_data buffer);
              Ok (Some (flip_rgb arr))
         else Ok None);
  let self' :=
    {| width := width self; height := height self;
       window_visible := window_visible self; isopen := isopen self;
       geoms := geoms self; onetime_geoms := [];
       transform := transform self |} in
  Ok (match arr with
      | Some a => RArray a
      | None => RIsOpen (isopen self)
      end, self').

(** [Viewer.add_onetime(geom)] *)
Definition add_onetime (self : Viewer) (geom : Geom) : Viewer :=
  {| width := width self; height := height self;
     window_visible := window_visible self; isopen := isopen self;
     geoms := geoms self; onetime_geoms := onetime_geoms self ++ [geom];
     transform := transform self |}.

(** The geoms the two loops of [Viewer.render] draw, in the order they are
    drawn: the persistent ones, then the one-time ones. *)
Definition drawn_geoms (self : Viewer) : list Geom :=
  geoms self ++ onetime_geoms self.

(** Where a vertex lands that is drawn under a transform without rotation:
    [Transform.enable] translates, (rotates,) then scales, so the vertex is
    scaled first and translated last. *)
Definition transform_point (t : Transform) (p : Vec2d) : Vec2d :=
  ((fst (translation t) + fst (scale t) * fst p)%Q,
   (snd (translation t) + snd (scale t) * snd p)%Q).

End gym_render.

(** ** pymunk: what the model keeps of the physics space *)

Module pm.

Inductive BodyType : Set := DYNAMIC | KINEMATIC | STATIC.

(** A rigid body: the attributes the entities read and write. *)
Record Body : Type := {
  body_type : BodyType;
  position : Vec2d;
  angle : Q;
  velocity : Vec2d
}.

(** [pm.Body(...)]: at the origin, at rest. *)
Definition Body_init (ty : BodyType) : Body :=
  {| body_type := ty; position := (0, 0)%Q; angle := 0%Q;
     velocity := (0, 0)%Q |}.

Definition set_position (b : Body) (p : Vec2d) : Body :=
  {| body_type := body_type b; position := p; angle := angle b;
     velocity := velocity b |}.

Definition set_angle (b : Body) (a : Q) : Body :=
  {| body_type := body_type b; position := position b; angle := a;
     velocity := velocity b |}.

Definition set_velocity (b : Body) (v : Vec2d) : Body :=
  {| body_type := body_type b; position := position b; angle := angle b;
     velocity := v |}.

(** [pm.SimpleMotor] *)
Record SimpleMotor : Type := {
  rate : Q;
  motor_max_bias : Q;
  motor_max_force : Q
}.

Definition set_rate (m : SimpleMotor) (r : Q) : SimpleMotor :=
  {| rate := r; motor_max_bias := motor_max_bias m;
     motor_max_force := motor_max_force m |}.

Inductive ConstraintKind : Set :=
| PivotJoint | GearJoint | PinJoint | RotaryLimitJoint | SimpleMotorJoint.

(** What [space.add] registers.  [max_force] is [None] where the code
    leaves pymunk's default (unbounded). *)
Inductive SpaceItem : Type :=
| BodyItem (ty : BodyType)
| ConstraintItem (kind : ConstraintKind) (max_force : option Q)
| ShapeItem (name : string) (friction : Q).

Record Space : Type := {
  collision_slop : Q;
  iterations : Z;
  items : list SpaceItem
}.

(** [pm.Space()], with pymunk's defaults for the two settings. *)
Definition Space_init : Space :=
  {| collision_slop := 1 # 10; iterations := 10; items := [] |}.

Definition set_collision_slop (s : Space) (x : Q) : Space :=
  {| collision_slop := x; iterations := iterations s; items := items s |}.

Definition set_iterations (s : Space) (n : Z) : Space :=
  {| collision_slop := collision_slop s; iterations := n; items := items s |}.

(** [space.add] of one or more objects *)
Definition add (s : Space) (objs : list SpaceItem) : Space :=
  {| collision_slop := collision_slop s; iterations := iterations s;
     items := items s ++ objs |}.

Definition max_forces (s : Space) : list Q :=
  omap (fun it => match it with
                  | ConstraintItem _ f => f
                  | _ => None
                  end) (items s).

End pm.

(** ** The objects passed to [setup] *)

(** [PhysicsVariables] (declared in base_env.py): one force limit per kind
    of joint. *)
Record PhysicsVariables : Type := {
  robot_pos_joint_max_force : Q;
  robot_rot_joint_max_force : Q;
  robot_finger_max_force : Q;
  shape_trans_joint_max_force : Q;
  shape_rot_joint_max_force : Q
}.

Inductive PyObj : Type :=
| ObjNone
| ObjViewer (v : gym_render.Viewer)
| ObjSpace (s : pm.Space)
| ObjPhysVars (p : PhysicsVariables).

(** ** entities.py *)

Module en.

(** [class RobotAction(enum.IntFlag)] *)
Module RobotAction.
Definition NONE : Z := 0.
Definition UP : Z := 1.
Definition DOWN : Z := 2.
Definition LEFT : Z := 4.
Definition RIGHT : Z := 8.
Definition OPEN : Z := 16.
Definition CLOSE : Z := 32.
End RobotAction.

(** Truth value of [move_action & flag]: an [IntFlag] is falsy iff it is
    zero. *)
Definition flag_set (move_action flag : Z) : bool :=
  negb (Z.land move_action flag =? 0).

(** [Entity.setup(self, viewer, space)]: exactly two positional
    arguments bind, any other number is a [TypeError].  The entity keeps
    weak proxies of the two ([None] has none: [TypeError]).  An object of
    another class in the place of the viewer or of the space is an
    [AttributeError] when the subclass first uses it; the model raises it
    at once (an environment never passes such arguments). *)
Definition Entity_setup (args : list PyObj)
    : Result (gym_render.Viewer * pm.Space) :=
  match args with
  | [ObjViewer viewer; ObjSpace space] => Ok (viewer, space)
  | [ObjNone; _] | [_; ObjNone] => Raise TypeError
  | [_; _] => Raise AttributeError
  | _ => Raise TypeError
  end.

(** [COLOURS_RGB[name]], for the table of [milbench.style] (that module
    is not part of the modelled sources; the table is a parameter). *)
Definition colour_lookup (COLOURS_RGB : gmap string (Q * Q * Q))
    (name : string) : Result (Q * Q * Q) :=
  match COLOURS_RGB !! name with
  | Some c => Ok c
  | None => Raise KeyError
  end.

(** *** Robot *)

Module Robot.

(** The attributes [__init__] creates. *)
Record Init : Type := {
  radius : Q;
  init_pos : Vec2d;
  init_angle : Q;
  mass : Q;
  rel_turn_angle : Q;
  target_speed : Q;
  finger_rot_limit_outer : Q;
  finger_rot_limit_inner : Q
}.

(** The attributes [setup] adds. *)
Record Rig : Type := {
  robot_body : pm.Body;
  control_body : pm.Body;
  finger_bodies : list pm.Body;
  finger_motors : list pm.SimpleMotor;
  target_finger_angle : Q;
  finger_xforms : list gym_render.Transform;
  robot_xform : gym_render.Transform
}.

(** A robot whose [setup] has run. *)
Record t : Type := { attrs : Init; rig : Rig }.

(** [Robot(radius, init_pos, init_angle, mass=1.0)] *)
Definition __init__ (radius : Q) (init_pos : Vec2d) (init_angle mass : Q)
    : Init :=
  {| radius := radius; init_pos := init_pos; init_angle := init_angle;
     mass := mass; rel_turn_angle := 0; target_speed := 0;
     finger_rot_limit_outer := math_pi / 8;
     finger_rot_limit_inner := math_pi / 8 |}%Q.

Definition set_targets (a : Init) (turn speed : Q) : Init :=
  {| radius := radius a; init_pos := init_pos a;
     init_angle := init_angle a; mass := mass a;
     rel_turn_angle := turn; target_speed := speed;
     finger_rot_limit_outer := finger_rot_limit_outer a;
     finger_rot_limit_inner := finger_rot_limit_inner a |}.

Definition set_target_finger_angle (g : Rig) (x : Q) : Rig :=
  {| robot_body := robot_body g; control_body := control_body g;
     finger_bodies := finger_bodies g; finger_motors := finger_motors g;
     target_finger_angle := x; finger_xforms := finger_xforms g;
     robot_xform := robot_xform g |}.

Definition set_control (g : Rig) (control_body : pm.Body)
    (finger_motors : list pm.SimpleMotor) : Rig :=
  {| robot_body := robot_body g; control_body := control_body;
     finger_bodies := finger_bodies g; finger_motors := finger_motors;
     target_finger_angle := target_finger_angle g;
     finger_xforms := finger_xforms g; robot_xform := robot_xform g |}.

Definition set_xforms (g : Rig) (robot_xform : gym_render.Transform)
    (finger_xforms : list gym_render.Transform) : Rig :=
  {| robot_body := robot_body g; control_body := control_body g;
     finger_bodies := finger_bodies g; finger_motors := finger_motors g;
     target_finger_angle := target_finger_angle g;
     finger_xforms := finger_xforms; robot_xform := robot_xform |}.

(** [Robot.set_action(move_action)] *)
Definition set_action (self : t) (move_action : Z) : t :=
  let rel_turn_angle := 0%Q in
  let target_speed := 0%Q in
  let target_speed :=
    if flag_set move_action RobotAction.UP
    then (target_speed + 4 * radius (attrs self))%Q else target_speed in
  let target_speed :=
    if flag_set move_action RobotAction.DOWN
    then (target_speed - 3 * radius (attrs self))%Q else target_speed in
  let target_speed :=
    if flag_set move_action RobotAction.UP
       && flag_set move_action RobotAction.DOWN
    then 0%Q else target_speed in
  let rel_turn_angle :=
    if flag_set move_action RobotAction.LEFT
    then (rel_turn_angle + (3 # 2))%Q else rel_turn_angle in
  let rel_turn_angle :=
    if flag_set move_action RobotAction.RIGHT
    then (rel_turn_angle - (3 # 2))%Q else rel_turn_angle in
  let target_finger_angle :=
    if flag_set move_action RobotAction.OPEN
    then finger_rot_limit_outer (attrs self)
    else if flag_set move_action RobotAction.CLOSE
    then (- finger_rot_limit_inner (attrs self))%Q
    else target_finger_angle (rig self) in
  {| attrs := set_targets (attrs self) rel_turn_angle target_speed;
     rig := set_target_finger_angle (rig self) target_finger_angle |}.

(** The body of the finger loop of [update]: the motor rate for one
    finger. *)
Definition finger_target_rate (self : t) (finger_body : pm.Body)
    (finger_side : Q) : Q :=
  let rel_angle := (pm.angle finger_body - pm.angle (robot_body (rig self)))%Q in
  let angle_error :=
    (rel_angle + finger_side * target_finger_angle (rig self))%Q in
  let target_rate := py_max (- (1))%Q (py_min 1%Q (angle_error * 10)%Q) in
  if Qlt_bool (Qabs target_rate) (1 # 10000) then 0%Q else target_rate.

(** [for finger_body, finger_motor, finger_side in zip(...)]: the
    motors the zip reaches get their new rate, the others stay. *)
Fixpoint update_finger_motors (self : t) (bodies : list pm.Body)
    (motors : list pm.SimpleMotor) (sides : list Q)
    : list pm.SimpleMotor :=
  match bodies, motors, sides with
  | finger_body :: bodies', finger_motor :: motors', finger_side :: sides' =>
      pm.set_rate finger_motor (finger_target_rate self finger_body finger_side)
      :: update_finger_motors self bodies' motors' sides'
  | _, _, _ => motors
  end.

(** [Robot.update(dt)].  [rotation_vector] is pymunk's
    [body.rotation_vector] as a function of the body's angle. *)
Definition update (rotation_vector : Q -> Vec2d) (self : t) (dt : Q) : t :=
  let g := rig self in
  let control_body :=
    pm.set_angle (control_body g)
      (pm.angle (robot_body g) + rel_turn_angle (attrs self))%Q in
  let x_vel_vector : Vec2d := (0%Q, target_speed (attrs self)) in
  let vel_vector :=
    cpvrotate (rotation_vector (pm.angle (robot_body g))) x_vel_vector in
  let control_body := pm.set_velocity control_body vel_vector in
  let finger_motors :=
    update_finger_motors self (finger_bodies g) (finger_motors g)
                         [(- (1))%Q; 1%Q] in
  {| attrs := attrs self; rig := set_control g control_body finger_motors |}.

(** [zip(self.finger_xforms, self.finger_bodies)] of [pre_draw] *)
Fixpoint draw_fingers (xforms : list gym_render.Transform)
    (bodies : list pm.Body) : list gym_render.Transform :=
  match xforms, bodies with
  | finger_xform :: xforms', finger_body :: bodies' =>
      let '(x, y) := pm.position finger_body in
      gym_render.set_rotation (gym_render.set_translation finger_xform x y)
                              (pm.angle finger_body)
      :: draw_fingers xforms' bodies'
  | _, _ => xforms
  end.

(** [Robot.pre_draw()] *)
Definition pre_draw (self : t) : t :=
  let g := rig self in
  let '(x, y) := pm.position (robot_body g) in
  let robot_xform :=
    gym_render.set_rotation (gym_render.set_translation (robot_xform g) x y)
                            (pm.angle (robot_body g)) in
  {| attrs := attrs self;
     rig := set_xforms g robot_xform
              (draw_fingers (finger_xforms g) (finger_bodies g)) |}.

(** One round of the loop [for finger_side in [-1, 1]] of [setup]: the
    finger's body, pin joint, rotary limit and motor. *)
Definition setup_finger (self : Init)
    (acc : list pm.Body * list pm.SimpleMotor * pm.Space)
    (finger_side : Q) : list pm.Body * list pm.SimpleMotor * pm.Space :=
  let '(finger_bodies, finger_motors, space) := acc in
  let buffer_width := (2 * radius self)%Q in
  let buffer_thickness := ((1 # 4) * radius self)%Q in
  let finger_length := ((6 # 5) * radius self)%Q in
  let finger_dy : Vec2d := (0, finger_length / 2)%Q in
  let finger_dx : Vec2d := (buffer_thickness / 2, 0)%Q in
  let buffer_pos : Vec2d := (0%Q, radius self) in
  let buffer_dy : Vec2d := (0, buffer_thickness / 2)%Q in
  let buffer_dx : Vec2d := (buffer_width / 2, 0)%Q in
  let finger_loc :=
    vadd (vsub (vsub (vadd buffer_pos (vscale finger_side buffer_dx))
                     buffer_dy)
               (vscale finger_side finger_dx))
         finger_dy in
  let finger_body := pm.set_position (pm.Body_init pm.DYNAMIC) finger_loc in
  let space := pm.add space [pm.BodyItem pm.DYNAMIC] in
  let finger_bodies := finger_bodies ++ [finger_body] in
  let space := pm.add space [pm.ConstraintItem pm.PinJoint None] in
  let space := pm.add space [pm.ConstraintItem pm.RotaryLimitJoint None] in
  let finger_motor :=
    {| pm.rate := 0; pm.motor_max_bias := 0; pm.motor_max_force := 2 |}%Q in
  let space :=
    pm.add space [pm.ConstraintItem pm.SimpleMotorJoint (Some 2%Q)] in
  (finger_bodies, finger_motors ++ [finger_motor], space).

(** [Robot.setup]: whatever arguments it is given go to [Entity.setup]. *)
Definition setup (COLOURS_RGB : gmap string (Q * Q * Q)) (self : Init)
    (args : list PyObj) : Result (t * gym_render.Viewer * pm.Space) :=
  '(viewer, space) ← Entity_setup args;
  let robot_body := pm.Body_init pm.DYNAMIC in
  let space := pm.add space [pm.BodyItem pm.DYNAMIC] in
  let control_body :=
    pm.set_angle (pm.set_position (pm.Body_init pm.KINEMATIC) (init_pos self))
                 (init_angle self) in
  let space := pm.add space [pm.BodyItem pm.KINEMATIC] in
  let space := pm.add space [pm.ConstraintItem pm.PivotJoint (Some 3%Q)] in
  let space := pm.add space [pm.ConstraintItem pm.GearJoint (Some 1%Q)] in
  let target_finger_angle := 0%Q in
  let '(finger_bodies, finger_motors, space) :=
    fold_left (setup_finger self) [(- (1))%Q; 1%Q] ([], [], space) in
  let space := pm.add space [pm.ShapeItem "body_shape" (1 # 2)%Q] in
  let space := pm.add space [pm.ShapeItem "buffer_shape" 2%Q] in
  let space :=
    fold_left (fun space _ => pm.add space [pm.ShapeItem "finger_shape" 2%Q])
              finger_bodies space in
  grey ← colour_lookup COLOURS_RGB "grey";
  let finger_xforms := map (fun _ => gym_render.Transform_default) finger_bodies in
  let robot_xform := gym_render.Transform_default in
  let viewer :=
    gym_render.add_geom viewer {| gym_render.geom_name := "robot_compound" |} in
  let viewer :=
    fold_left (fun viewer _ =>
                 gym_render.add_geom viewer
                   {| gym_render.geom_name := "finger_geom" |})
              finger_xforms viewer in
  Ok ({| attrs := self;
         rig := {| robot_body := robot_body; control_body := control_body;
                   finger_bodies := finger_bodies;
                   finger_motors := finger_motors;
                   target_finger_angle := target_finger_angle;
                   finger_xforms := finger_xforms;
                   robot_xform := robot_xform |} |},
      viewer, space).

End Robot.

(** *** Arena boundaries *)

Module ArenaBoundaries.

Record t : Type := {
  left : Q;
  right : Q;
  top : Q;
  bottom : Q;
  seg_rad : Q
}.

(** [ArenaBoundaries(left, right, top, bottom, seg_rad=1)] *)
Definition __init__ (left right top bottom : Q) : t :=
  {| left := left; right := right; top := top; bottom := bottom;
     seg_rad := 1 |}.

(** [ArenaBoundaries.setup], arguments forwarded to [Entity.setup]: four
    thick segments. *)
Definition setup (self : t) (args : list PyObj)
    : Result (t * gym_render.Viewer * pm.Space) :=
  '(viewer, space) ← Entity_setup args;
  let arena_segments := repeat (pm.ShapeItem "segment" (4 # 5)%Q) 4 in
  Ok (self, viewer, pm.add space arena_segments).

(** The corner points of [setup], each [seg_rad] outside the arena. *)
Definition points (self : t) : list Vec2d :=
  let rad := seg_rad self in
  [((left self - rad)%Q, (top self + rad)%Q);
   ((right self + rad)%Q, (top self + rad)%Q);
   ((right self + rad)%Q, (bottom self - rad)%Q);
   ((left self - rad)%Q, (bottom self - rad)%Q)].

(** [zip(points, points[1:] + points[:1])]: start and end point of each
    segment [setup] creates. *)
Definition segments (self : t) : list (Vec2d * Vec2d) :=
  zip (points self) (drop 1 (points self) ++ take 1 (points self)).

End ArenaBoundaries.

(** *** Pushable shapes *)

(** [class ShapeType(enum.Enum)] *)
Inductive ShapeType : Set := CIRCLE | SQUARE | TRIANGLE | PENTAGON.

(** What a caller may pass as [shape_type]: a member of the enum, or any
    other Python value. *)
Inductive ShapeTypeArg : Set :=
| Member (t : ShapeType)
| NotMember (repr : string).

Module Shape.

Record Init : Type := {
  shape_type : ShapeTypeArg;
  shape_size : Q;
  colour : Q * Q * Q;
  init_pos : Vec2d;
  init_angle : Q;
  mass : Q
}.

Record t : Type := {
  attrs : Init;
  shape_body : pm.Body;
  shape_xform : gym_render.Transform
}.

(** [Shape(shape_type, colour_name, shape_size, init_pos, init_angle,
    mass=0.5)] *)
Definition __init__ (COLOURS_RGB : gmap string (Q * Q * Q))
    (shape_type : ShapeTypeArg) (colour_name : string) (shape_size : Q)
    (init_pos : Vec2d) (init_angle mass : Q) : Result Init :=
  colour ← colour_lookup COLOURS_RGB colour_name;
  Ok {| shape_type := shape_type; shape_size := shape_size;
        colour := colour; init_pos := init_pos; init_angle := init_angle;
        mass := mass |}.

(** The physics branch of [setup]: the body and the collision shape for
    the shape type, or [NotImplementedError]. *)
Definition setup_body (self : Init) (space : pm.Space)
    : Result (pm.Body * string * pm.Space) :=
  let body :=
    pm.set_angle (pm.set_position (pm.Body_init pm.DYNAMIC) (init_pos self))
                 (init_angle self) in
  match shape_type self with
  | Member SQUARE =>
      Ok (body, "create_box", pm.add space [pm.BodyItem pm.DYNAMIC])
  | Member CIRCLE =>
      Ok (body, "Circle", pm.add space [pm.BodyItem pm.DYNAMIC])
  | Member TRIANGLE | Member PENTAGON =>
      Ok (body, "Poly", pm.add space [pm.BodyItem pm.DYNAMIC])
  | NotMember _ => Raise NotImplementedError
  end.

(** [Shape.setup], arguments forwarded to [Entity.setup]. *)
Definition setup (self : Init) (args : list PyObj)
    : Result (t * gym_render.Viewer * pm.Space) :=
  '(viewer, space) ← Entity_setup args;
  '(body, shape, space) ← setup_body self space;
  let space := pm.add space [pm.ShapeItem shape (1 # 2)%Q] in
  let space := pm.add space [pm.ConstraintItem pm.PivotJoint (Some (3 # 2)%Q)] in
  let space := pm.add space [pm.ConstraintItem pm.GearJoint (Some (1 # 10)%Q)] in
  _ ← match shape_type self with
      | Member _ => Ok tt
      | NotMember _ => Raise NotImplementedError
      end;
  let shape_xform := gym_render.Transform_default in
  let viewer :=
    gym_render.add_geom viewer {| gym_render.geom_name := "shape_compound" |} in
  Ok ({| attrs := self; shape_body := body; shape_xform := shape_xform |},
      viewer, space).

(** [Shape.pre_draw()] *)
Definition pre_draw (self : t) : t :=
  let '(x, y) := pm.position (shape_body self) in
  {| attrs := attrs self; shape_body := shape_body self;
     shape_xform :=
       gym_render.set_rotation
         (gym_render.set_translation (shape_xform self) x y)
         (pm.angle (shape_body self)) |}.

End Shape.

(** *** The closed union of the entity classes *)

(** An entity as constructed, before [setup]. *)
Inductive EntityNew : Type :=
| NewRobot (r : Robot.Init)
| NewArena (a : ArenaBoundaries.t)
| NewShape (s : Shape.Init).

(** An entity whose [setup] has completed. *)
Inductive Entity : Type :=
| LiveRobot (r : Robot.t)
| LiveArena (a : ArenaBoundaries.t)
| LiveShape (s : Shape.t).

(** [isinstance(entity, en.Robot)] *)
Definition isinstance_Robot (e : EntityNew) : bool :=
  match e with NewRobot _ => true | _ => false end.

(** [entity.setup] on the given arguments, dispatched on the class. *)
Definition setup (COLOURS_RGB : gmap string (Q * Q * Q)) (e : EntityNew)
    (args : list PyObj) : Result (Entity * gym_render.Viewer * pm.Space) :=
  match e with
  | NewRobot r =>
      '(r', viewer, space) ← Robot.setup COLOURS_RGB r args;
      Ok (LiveRobot r', viewer, space)
  | NewArena a =>
      '(a', viewer, space) ← ArenaBoundaries.setup a args;
      Ok (LiveArena a', viewer, space)
  | NewShape s =>
      '(s', viewer, space) ← Shape.setup s args;
      Ok (LiveShape s', viewer, space)
  end.

(** [ent.update(dt)]: only the robot overrides [Entity.update]. *)
Definition update (rotation_vector : Q -> Vec2d) (e : Entity) (dt : Q)
    : Entity :=
  match e with
  | LiveRobot r => LiveRobot (Robot.update rotation_vector r dt)
  | _ => e
  end.

(** [ent.pre_draw()] *)
Definition pre_draw (e : Entity) : Entity :=
  match e with
  | LiveRobot r => LiveRobot (Robot.pre_draw r)
  | LiveArena a => LiveArena a
  | LiveShape s => LiveShape (Shape.pre_draw s)
  end.

(** [robot.set_action(flags)], for the object an environment holds as
    its robot: [add_entities] stores there instances of [Robot] only. *)
Definition set_action (e : Entity) (move_action : Z) : Entity :=
  match e with
  | LiveRobot r => LiveRobot (Robot.set_action r move_action)
  | _ => e
  end.

(** *** The action table *)

Section ActionTable.

(** The flag triples, in the order of their action numbers. *)
Variable flag_table : list (Z * Z * Z).

Definition numbered : list (Z * (Z * Z * Z)) :=
  zip (seqZ 0 (Z.of_nat (length flag_table))) flag_table.

(** [{num: flags for num, flags, name in table}] *)
Definition id_to_flags : gmap Z (Z * Z * Z) := list_to_map numbered.

(** [{flags: num for num, flags in ACTION_ID_TO_FLAGS.items()}] *)
Definition flags_to_id : gmap (Z * Z * Z) Z :=
  list_to_map ((fun p => (snd p, fst p)) <$> numbered).

End ActionTable.

(** Modelled from the spec: the action table.  base_env.py reads
    [en.ACTION_NUMS_FLAGS_NAMES], [en.ACTION_ID_TO_FLAGS] and
    [en.FLAGS_TO_ACTION_ID], which entities.py as modelled here does not
    define.  Per the spec an action is one of the valid (vertical,
    horizontal, gripper) flag combinations: up/down/neither, left/right/
    neither, open/close; they are numbered from 0, the all-neutral
    (NONE, NONE, OPEN) being action 0 as __main__.py expects of the null
    action. *)
Definition ACTION_NUMS_FLAGS_NAMES : list (Z * Z * Z) :=
  ud ← [RobotAction.NONE; RobotAction.UP; RobotAction.DOWN];
  lr ← [RobotAction.NONE; RobotAction.LEFT; RobotAction.RIGHT];
  grip ← [RobotAction.OPEN; RobotAction.CLOSE];
  [(ud, lr, grip)].

Definition ACTION_ID_TO_FLAGS : gmap Z (Z * Z * Z) :=
  id_to_flags ACTION_NUMS_FLAGS_NAMES.

Definition FLAGS_TO_ACTION_ID : gmap (Z * Z * Z) Z :=
  flags_to_id ACTION_NUMS_FLAGS_NAMES.

End en.

(** ** base_env.py *)

Module base_env.

(** What a Python call may return where the code only asks whether it is
    [None]. *)
Inductive PyVal : Type :=
| PyNone
| PyOther (repr : string).

(** The interface of the module [en] that [BaseEnv] relies on: entity
    objects as constructed ([E0]) and as live in the entity list ([E]),
    the test [isinstance(entity, en.Robot)], the arena as an entity, and
    the methods every entity answers to. *)
Class EntityModule (E0 E : Type) : Type := {
  isinstance_Robot : E0 -> bool;
  arena_entity : en.ArenaBoundaries.t -> E0;
  setup : E0 -> list PyObj -> Result (E * gym_render.Viewer * pm.Space);
  update : E -> Q -> E;
  pre_draw : E -> E;
  set_action : E -> Z -> E;
  arena_not_Robot : forall a, isinstance_Robot (arena_entity a) = false
}.

(** What pymunk, pyglet and numpy contribute.
    - [integrate dt space ents i ent] is entity number [i] after
      [space.step(dt)], given the whole scene before the step: the
      integrator moves bodies, it neither adds nor removes entities.
    - [color_buffer viewer ents] is the colour buffer of the window once
      the geoms are drawn; pyglet hands out RGBA data, four bytes per
      pixel of the buffer.
    - [PhysicsVariables_sample] draws a set of physics variables from
      the generator, whose state is an opaque number. *)
Class Backend (E : Type) : Type := {
  integrate : Q -> pm.Space -> list E -> nat -> E -> E;
  color_buffer : gym_render.Viewer -> list E -> gym_render.ColorBuffer;
  PhysicsVariables_sample : Z -> PhysicsVariables * Z;
  color_buffer_rgba : forall viewer ents,
    length (gym_render.buf_data (color_buffer viewer ents))
    = (gym_render.buf_height (color_buffer viewer ents)
       * gym_render.buf_width (color_buffer viewer ents) * 4)%nat
}.

(** Modelled from the spec: [PhysicsVariables.defaults()] of
    [milbench.phys_vars] (not part of the modelled sources) returns the
    nominal constant set, i.e. the first argument of each [PhysVar]
    declared in base_env.py. *)
Definition PhysicsVariables_defaults : PhysicsVariables :=
  {| robot_pos_joint_max_force := 3;
     robot_rot_joint_max_force := 1;
     robot_finger_max_force := 4;
     shape_trans_joint_max_force := 3 # 2;
     shape_rot_joint_max_force := 1 # 10 |}%Q.

(** The calls an environment makes on its entities and on the space, in
    the order it makes them. *)
Inductive Call : Type :=
| CallSetup (index : nat) (args : nat)
| CallUpdate (index : nat) (dt : Q)
| CallSpaceStep (dt : Q).

(** The keyword arguments of [BaseEnv.__init__]. *)
Record Config : Type := {
  res_hw : Z * Z;
  fps : Q;
  phys_steps : Z;
  phys_iter : Z;
  max_episode_steps : option Z;
  rand_dynamics : bool
}.

(** The environment object.  [_robot] is a reference to an element of
    [_entities] (its index); [calls] is the history of calls made so
    far.  [_entities], [_space] and [_episode_steps], which are [None]
    until the first [reset], have the types [reset] gives them. *)
Record BaseEnv (E : Type) : Type := {
  config : Config;
  _entities : list E;
  _space : pm.Space;
  _robot : option nat;
  _episode_steps : Z;
  _phys_vars : option PhysicsVariables;
  _arena : option en.ArenaBoundaries.t;
  viewer : option gym_render.Viewer;
  rng : Z;
  calls : list Call
}.

Arguments config {E} _.
Arguments _entities {E} _.
Arguments _space {E} _.
Arguments _robot {E} _.
Arguments _episode_steps {E} _.
Arguments _phys_vars {E} _.
Arguments _arena {E} _.
Arguments viewer {E} _.
Arguments rng {E} _.
Arguments calls {E} _.

(** The abstract methods a scenario supplies.  [on_reset] is given by
    what it does to the environment: the lists of entities it hands to
    [add_entities], in order, and the value it returns. *)
Class Scenario (E0 E : Type) : Type := {
  on_reset : BaseEnv E -> list (list E0) * PyVal;
  score_on_end_of_traj : BaseEnv E -> Q
}.

(** Constants of the class. *)
Definition ROBOT_RAD : Q := 1 # 5.
Definition ROBOT_MASS : Q := 1.
Definition ARENA_BOUNDS_LRBT : Q * Q * Q * Q := (- (1), 1, - (1), 1)%Q.

Section Env.

Context {E0 E : Type}.
Context {EM : EntityModule E0 E} {BE : Backend E} {SC : Scenario E0 E}.

Definition set_entities (self : BaseEnv E) (ents : list E) : BaseEnv E :=
  {| config := config self; _entities := ents; _space := _space self;
     _robot := _robot self; _episode_steps := _episode_steps self;
     _phys_vars := _phys_vars self; _arena := _arena self;
     viewer := viewer self; rng := rng self; calls := calls self |}.

Definition set_space (self : BaseEnv E) (space : pm.Space) : BaseEnv E :=
  {| config := config self; _entities := _entities self; _space := space;
     _robot := _robot self; _episode_steps := _episode_steps self;
     _phys_vars := _phys_vars self; _arena := _arena self;
     viewer := viewer self; rng := rng self; calls := calls self |}.

Definition set_robot (self : BaseEnv E) (robot : option nat) : BaseEnv E :=
  {| config := config self; _entities := _entities self;
     _space := _space self; _robot := robot;
     _episode_steps := _episode_steps self;
     _phys_vars := _phys_vars self; _arena := _arena self;
     viewer := viewer self; rng := rng self; calls := calls self |}.

Definition set_episode_steps (self : BaseEnv E) (n : Z) : BaseEnv E :=
  {| config := config self; _entities := _entities self;
     _space := _space self; _robot := _robot self; _episode_steps := n;
     _phys_vars := _phys_vars self; _arena := _arena self;
     viewer := viewer self; rng := rng self; calls := calls self |}.

Definition set_phys_vars (self : BaseEnv E)
    (pv : option PhysicsVariables) (rng' : Z) : BaseEnv E :=
  {| config := config self; _entities := _entities self;
     _space := _space self; _robot := _robot self;
     _episode_steps := _episode_steps self;
     _phys_vars := pv; _arena := _arena self;
     viewer := viewer self; rng := rng'; calls := calls self |}.

Definition set_arena (self : BaseEnv E)
    (arena : option en.ArenaBoundaries.t) : BaseEnv E :=
  {| config := config self; _entities := _entities self;
     _space := _space self; _robot := _robot self;
     _episode_steps := _episode_steps self;
     _phys_vars := _phys_vars self; _arena := arena;
     viewer := viewer self; rng := rng self; calls := calls self |}.

Definition set_viewer (self : BaseEnv E)
    (v : option gym_render.Viewer) : BaseEnv E :=
  {| config := config self; _entities := _entities self;
     _space := _space self; _robot := _robot self;
     _episode_steps := _episode_steps self;
     _phys_vars := _phys_vars self; _arena := _arena self;
     viewer := v; rng := rng self; calls := calls self |}.

Definition log (self : BaseEnv E) (cs : list Call) : BaseEnv E :=
  {| config := config self; _entities := _entities self;
     _space := _space self; _robot := _robot self;
     _episode_steps := _episode_steps self;
     _phys_vars := _phys_vars self; _arena := _arena self;
     viewer := viewer self; rng := rng self; calls := calls self ++ cs |}.

(** [BaseEnv.__init__]; [seed] is the number [self.seed()] draws. *)
Definition __init__ (cfg : Config) (seed : Z) : BaseEnv E :=
  {| config := cfg; _entities := []; _space := pm.Space_init;
     _robot := None; _episode_steps := 0; _phys_vars := None;
     _arena := None; viewer := None; rng := seed; calls := [] |}.

(** [action_to_flags(int_action)] *)
Definition action_to_flags (int_action : Z) : Result (Z * Z * Z) :=
  match en.ACTION_ID_TO_FLAGS !! int_action with
  | Some flags => Ok flags
  | None => Raise KeyError
  end.

(** [flags_to_action(flags)] *)
Definition flags_to_action (flags : Z * Z * Z) : Result Z :=
  match en.FLAGS_TO_ACTION_ID !! flags with
  | Some a => Ok a
  | None => Raise KeyError
  end.

Definition opt_obj {A : Type} (f : A -> PyObj) (o : option A) : PyObj :=
  match o with Some a => f a | None => ObjNone end.

(** [add_entities(entities)].  The entity is appended and then set up;
    its place in the list is known before [setup] runs, and the list
    holds it as [setup] leaves it. *)
Fixpoint add_entities (self : BaseEnv E) (entities : list E0)
    : Result (BaseEnv E) :=
  match entities with
  | [] => Ok self
  | entity :: entities' =>
      let index := length (_entities self) in
      let self :=
        if isinstance_Robot entity then set_robot self (Some index)
        else self in
      let args := [opt_obj ObjViewer (viewer self);
                   ObjSpace (_space self);
                   opt_obj ObjPhysVars (_phys_vars self)] in
      let self := log self [CallSetup index (length args)] in
      '(live, viewer', space') ← setup entity args;
      let self := set_entities self (_entities self ++ [live]) in
      let self := set_space (set_viewer self (Some viewer')) space' in
      add_entities self entities'
  end.

(** The calls of one round of the loop of [_phys_steps_on_frame] over
    [n] entities: [update(dt)] on each, then [space.step(dt)]. *)
Definition substep_calls (n : nat) (dt : Q) : list Call :=
  map (fun i => CallUpdate i dt) (seq 0 n) ++ [CallSpaceStep dt].

(** One round of the loop of [_phys_steps_on_frame]. *)
Definition phys_substep (dt : Q) (self : BaseEnv E) : BaseEnv E :=
  let ents := map (fun ent => update ent dt) (_entities self) in
  let self := set_entities self ents in
  let self :=
    log self (map (fun i => CallUpdate i dt) (seq 0 (length ents))) in
  let self :=
    set_entities self (imap (integrate dt (_space self) ents) ents) in
  log self [CallSpaceStep dt].

(** [_phys_steps_on_frame()] *)
Definition _phys_steps_on_frame (self : BaseEnv E) : Result (BaseEnv E) :=
  let phys_steps := 10 in
  spf ← (if Qeq_bool (fps (config self)) 0 then Raise ZeroDivisionError
         else Ok (1 / fps (config self))%Q);
  let dt := (spf / inject_Z phys_steps)%Q in
  Ok (Nat.iter (Z.to_nat phys_steps) (phys_substep dt) self).

(** [render(mode)] *)
Definition render (self : BaseEnv E) (mode : string)
    : Result (option gym_render.RenderReturn * BaseEnv E) :=
  match viewer self with
  | None => Ok (None, self)
  | Some v =>
      let self := set_entities self (map pre_draw (_entities self)) in
      v ← (if String.eqb mode "human" then Ok (gym_render.set_visible v true)
           else _ ← py_assert (String.eqb mode "rgb_array"); Ok v);
      '(ret, v) ← gym_render.render v (color_buffer v (_entities self)) true;
      Ok (Some ret, set_viewer self (Some v))
  end.

(** The scenario hook at work: its calls to [add_entities]. *)
Fixpoint run_on_reset (self : BaseEnv E) (batches : list (list E0))
    : Result (BaseEnv E) :=
  match batches with
  | [] => Ok self
  | entities :: batches' =>
      self ← add_entities self entities;
      run_on_reset self batches'
  end.

Definition is_None (v : PyVal) : bool :=
  match v with PyNone => true | PyOther _ => false end.

(** [reset()] *)
Definition reset (self : BaseEnv E)
    : Result (option gym_render.RenderReturn * BaseEnv E) :=
  let self := set_episode_steps self 0 in
  let self := set_entities self [] in
  let self := set_robot self None in
  let self := set_phys_vars self None (rng self) in
  let self :=
    match viewer self with
    | None =>
        let '(res_h, res_w) := res_hw (config self) in
        set_viewer self (Some (gym_render.Viewer_init res_w res_h false))
    | Some v => set_viewer self (Some (gym_render.reset_geoms v))
    end in
  let self :=
    set_space self
      (pm.set_iterations (pm.set_collision_slop pm.Space_init (1 # 100))
                         (phys_iter (config self))) in
  let self :=
    if rand_dynamics (config self)
    then let '(pv, rng') := PhysicsVariables_sample (rng self) in
         set_phys_vars self (Some pv) rng'
    else set_phys_vars self (Some PhysicsVariables_defaults) (rng self) in
  let '(arena_l, arena_r, arena_b, arena_t) := ARENA_BOUNDS_LRBT in
  let arena := en.ArenaBoundaries.__init__ arena_l arena_r arena_t arena_b in
  let self := set_arena self (Some arena) in
  self ← add_entities self [arena_entity arena];
  let '(batches, reset_rv) := on_reset self in
  self ← run_on_reset self batches;
  _ ← py_assert (is_None reset_rv);
  _ ← py_assert (bool_decide (is_Some (_robot self)));
  _ ← py_assert (1 <=? length (_entities self))%nat;
  v ← match viewer self, _arena self with
      | Some v, Some arena =>
          gym_render.set_bounds v
            (en.ArenaBoundaries.left arena) (en.ArenaBoundaries.right arena)
            (en.ArenaBoundaries.bottom arena) (en.ArenaBoundaries.top arena)
      | _, _ => Raise AttributeError
      end;
  render (set_viewer self (Some v)) "rgb_array".

(** [self._robot.set_action(action_flag)] *)
Definition robot_set_action (self : BaseEnv E) (action_flag : Z)
    : Result (BaseEnv E) :=
  match _robot self with
  | None => Raise AttributeError
  | Some i =>
      Ok (set_entities self
            (alter (fun robot => set_action robot action_flag) i
                   (_entities self)))
  end.

(** The first half of [step]: the action is decoded and applied, the
    physics runs for one frame, the step counter advances. *)
Definition step_forward (self : BaseEnv E) (action : Z)
    : Result (BaseEnv E) :=
  '(ac_flag_ud, ac_flag_lr, ac_flag_grip) ← action_to_flags action;
  let action_flag := en.RobotAction.NONE in
  let action_flag := Z.lor action_flag ac_flag_ud in
  let action_flag := Z.lor action_flag ac_flag_lr in
  let action_flag := Z.lor action_flag ac_flag_grip in
  self ← robot_set_action self action_flag;
  self ← _phys_steps_on_frame self;
  Ok (set_episode_steps self (_episode_steps self + 1)).

(** What [step] returns: observation, reward, done, info. *)
Definition StepReturn : Type :=
  option gym_render.RenderReturn * Q * bool * gmap string Q.

(** [step(action)] *)
Definition step (self : BaseEnv E) (action : Z)
    : Result (StepReturn * BaseEnv E) :=
  self ← step_forward self action;
  let info : gmap string Q := ∅ in
  let reward := 0%Q in
  let done := false in
  let eval_score := 0%Q in
  let done :=
    match max_episode_steps (config self) with
    | Some n => done || (n <=? _episode_steps self)
    | None => done
    end in
  eval_score ←
    (if done
     then let eval_score := score_on_end_of_traj self in
          _ ← py_assert (Qle_bool 0 eval_score && Qle_bool eval_score 1);
          Ok eval_score
     else Ok eval_score);
  let info := <["eval_score" := eval_score]> info in
  '(obs_u8, self) ← render self "rgb_array";
  Ok ((obs_u8, reward, done, info), self).

(** A caller stepping through a list of actions, as the rollout loops
    do: the returns of the calls in order, up to the first exception. *)
Fixpoint rollout (self : BaseEnv E) (actions : list Z)
    : Result (list StepReturn * BaseEnv E) :=
  match actions with
  | [] => Ok ([], self)
  | action :: actions' =>
      '(ret, self) ← step self action;
      '(rets, self) ← rollout self actions';
      Ok (ret :: rets, self)
  end.

(** [close()]: a viewer object is truthy. *)
Definition close (self : BaseEnv E) : BaseEnv E :=
  match viewer self with
  | Some _ => set_viewer self None
  | None => self
  end.

(** *** Vocabulary of the properties *)

(** The calls of one frame of physics over [n] entities, i.e. of one
    [_phys_steps_on_frame]: ten sub-steps. *)
Definition frame_calls (n : nat) (dt : Q) : list Call :=
  concat (replicate 10 (substep_calls n dt)).

(** The sub-step length of an environment: [1 / fps / 10]. *)
Definition frame_dt (self : BaseEnv E) : Q :=
  (1 / fps (config self) / inject_Z 10)%Q.

(** The flag word [step] puts together from a decoded triple. *)
Definition action_flag (flags : Z * Z * Z) : Z :=
  let '(ac_flag_ud, ac_flag_lr, ac_flag_grip) := flags in
  Z.lor (Z.lor (Z.lor en.RobotAction.NONE ac_flag_ud) ac_flag_lr) ac_flag_grip.

(** The four components of what [step] returns. *)
Definition ret_obs (ret : StepReturn) : option gym_render.RenderReturn :=
  fst (fst (fst ret)).
Definition ret_reward (ret : StepReturn) : Q := snd (fst (fst ret)).
Definition ret_done (ret : StepReturn) : bool := snd (fst ret).
Definition ret_info (ret : StepReturn) : gmap string Q := snd ret.

(** An action index of the table. *)
Definition valid_action (action : Z) : Prop :=
  0 <= action < Z.of_nat (length en.ACTION_NUMS_FLAGS_NAMES).

(** What a step or a render leaves untouched: the configuration and the
    robot reference; [k] is the step counter afterwards. *)
Definition carries (self self' : BaseEnv E) (k : Z) : Prop :=
  config self' = config self /\
  _robot self' = _robot self /\
  _episode_steps self' = k.

End Env.
End base_env.

(** ** __main__.py: the keyboard *)

Module main.

(** The keys the demonstration loop reads from [key_map]. *)
Record Keys : Type := {
  key_UP : bool;
  key_DOWN : bool;
  key_LEFT : bool;
  key_RIGHT : bool;
  key_SPACE : bool
}.

(** The flag triple the loop of [main] builds from the keys held down. *)
Definition act_flags (key_map : Keys) : Z * Z * Z :=
  let flag0 := en.RobotAction.NONE in
  let flag1 := en.RobotAction.NONE in
  let flag2 := en.RobotAction.OPEN in
  let flag0 :=
    if key_UP key_map && negb (key_DOWN key_map) then en.RobotAction.UP
    else if key_DOWN key_map && negb (key_UP key_map) then en.RobotAction.DOWN
    else flag0 in
  let flag1 :=
    if key_LEFT key_map && negb (key_RIGHT key_map) then en.RobotAction.LEFT
    else if key_RIGHT key_map && negb (key_LEFT key_map)
    then en.RobotAction.RIGHT
    else flag1 in
  let flag2 := if key_SPACE key_map then en.RobotAction.CLOSE else flag2 in
  (flag0, flag1, flag2).

(** [action = env.flags_to_action(act_flags)] *)
Definition key_action (key_map : Keys) : Result Z :=
  base_env.flags_to_action (act_flags key_map).

End main.

(** ** entities.py as the entity module of an environment *)

#[global] Instance en_module (COLOURS_RGB : gmap string (Q * Q * Q))
    (rotation_vector : Q -> Vec2d)
    : base_env.EntityModule en.EntityNew en.Entity := {|
  base_env.isinstance_Robot := en.isinstance_Robot;
  base_env.arena_entity := en.NewArena;
  base_env.setup := en.setup COLOURS_RGB;
  base_env.update := en.update rotation_vector;
  base_env.pre_draw := en.pre_draw;
  base_env.set_action := en.set_action;
  base_env.arena_not_Robot := fun _ => eq_refl
|}.

(** ** Concrete objects used as examples *)

Module Fixtures.

(** A colour table with the one entry [Robot.setup] reads. *)
Definition colours : gmap string (Q * Q * Q) :=
  {[ "grey" := ((1 # 2)%Q, (1 # 2)%Q, (1 # 2)%Q) ]}.

(** The rotation vector of a body at angle 0, for every angle: the
    robots of the examples do not turn. *)
Definition upright (angle : Q) : Vec2d := (1, 0)%Q.

Definition finger (x : Q) (angle : Q) : pm.Body :=
  {| pm.body_type := pm.DYNAMIC; pm.position := (x, 59 # 200)%Q;
     pm.angle := angle; pm.velocity := (0, 0)%Q |}.

Definition motor : pm.SimpleMotor :=
  {| pm.rate := 0; pm.motor_max_bias := 0; pm.motor_max_force := 2 |}%Q.

(** A robot of radius 0.2 at the origin with its two fingers, the left
    one 0.05 rad off its target angle and the right one 0.000005 rad. *)
Definition robot : en.Robot.t :=
  {| en.Robot.attrs := en.Robot.__init__ (1 # 5) (0, 0)%Q 0 1;
     en.Robot.rig :=
       {| en.Robot.robot_body := pm.Body_init pm.DYNAMIC;
          en.Robot.control_body := pm.Body_init pm.KINEMATIC;
          en.Robot.finger_bodies :=
            [finger (- (7 # 40)) (1 # 20); finger (7 # 40) (1 # 200000)];
          en.Robot.finger_motors := [motor; motor];
          en.Robot.target_finger_angle := 0;
          en.Robot.finger_xforms :=
            [gym_render.Transform_default; gym_render.Transform_default];
          en.Robot.robot_xform := gym_render.Transform_default |} |}%Q.

(** A window of one pixel, RGBA = (1, 2, 3, 255). *)
Definition one_pixel_buffer : gym_render.ColorBuffer :=
  {| gym_render.buf_height := 1; gym_render.buf_width := 1;
     gym_render.buf_data := [x01; x02; x03; xff] |}.

(** A white window of the size the viewer asked for. *)
Definition white_buffer (viewer : gym_render.Viewer)
    : gym_render.ColorBuffer :=
  let h := Z.to_nat (gym_render.height viewer) in
  let w := Z.to_nat (gym_render.width viewer) in
  {| gym_render.buf_height := h; gym_render.buf_width := w;
     gym_render.buf_data := replicate (h * w * 4) xff |}.

(** A backend where nothing moves and the window stays white. *)
#[local] Instance still (E : Type) : base_env.Backend E := {|
  base_env.integrate := fun _ _ _ _ ent => ent;
  base_env.color_buffer := fun viewer _ => white_buffer viewer;
  base_env.PhysicsVariables_sample :=
    fun rng => (base_env.PhysicsVariables_defaults, rng + 1);
  base_env.color_buffer_rgba := fun viewer _ => length_replicate _ _
|}.

(** A robot as a scenario constructs it, left of the centre. *)
Definition robot_left : en.Robot.Init :=
  en.Robot.__init__ base_env.ROBOT_RAD (- (1 # 2), 0)%Q 0 base_env.ROBOT_MASS.

(** A square, constructed. *)
Definition square : en.Shape.Init :=
  {| en.Shape.shape_type := en.Member en.SQUARE;
     en.Shape.shape_size := 3 # 25;
     en.Shape.colour := ((1 # 2)%Q, (1 # 2)%Q, (1 # 2)%Q);
     en.Shape.init_pos := (0, 1 # 2)%Q;
     en.Shape.init_angle := 0;
     en.Shape.mass := 1 # 2 |}.

(** A scenario whose hook adds the given batches of entities and returns
    [None]; its score is the given number. *)
Definition scenario {E0 E : Type} (batches : list (list E0)) (score : Q)
    : base_env.Scenario E0 E := {|
  base_env.on_reset := fun _ => (batches, base_env.PyNone);
  base_env.score_on_end_of_traj := fun _ => score
|}.

Definition config (phys_steps : Z) (max_episode_steps : option Z)
    : base_env.Config :=
  {| base_env.res_hw := (2, 2); base_env.fps := 20;
     base_env.phys_steps := phys_steps; base_env.phys_iter := 10;
     base_env.max_episode_steps := max_episode_steps;
     base_env.rand_dynamics := false |}.

Definition arena : en.ArenaBoundaries.t :=
  en.ArenaBoundaries.__init__ (- (1)) 1 1 (- (1)).

(** An environment of entities.py objects in the state a reset leaves:
    step counter 0, the arena and the robot in the entity list, a 2 x 2
    viewer.  It is configured with 5 physics sub-steps per frame and
    episodes of 2 steps. *)
Definition env : base_env.BaseEnv en.Entity :=
  {| base_env.config := config 5 (Some 2);
     base_env._entities := [en.LiveArena arena; en.LiveRobot robot];
     base_env._space := pm.Space_init;
     base_env._robot := Some 1%nat;
     base_env._episode_steps := 0;
     base_env._phys_vars := Some base_env.PhysicsVariables_defaults;
     base_env._arena := Some arena;
     base_env.viewer := Some (gym_render.Viewer_init 2 2 false);
     base_env.rng := 0;
     base_env.calls := [] |}.

(** The same environment made without [max_episode_steps]. *)
Definition env_without_limit : base_env.BaseEnv en.Entity :=
  {| base_env.config := config 10 None;
     base_env._entities := [en.LiveArena arena; en.LiveRobot robot];
     base_env._space := pm.Space_init;
     base_env._robot := Some 1%nat;
     base_env._episode_steps := 0;
     base_env._phys_vars := Some base_env.PhysicsVariables_defaults;
     base_env._arena := Some arena;
     base_env.viewer := Some (gym_render.Viewer_init 2 2 false);
     base_env.rng := 0;
     base_env.calls := [] |}.

End Fixtures.

(** * Properties *)

(** ** Comparisons on rationals *)

Lemma Qlt_bool_iff (a b : Q) : Qlt_bool a b = true <-> (a < b)%Q.
Proof.
  unfold Qlt_bool. rewrite negb_true_iff. split.
  - intros H. apply Qnot_le_lt. intros Hle.
    apply Qle_bool_iff in Hle. congruence.
  - intros H. destruct (Qle_bool b a) eqn:E; [|reflexivity].
    apply Qle_bool_iff in E. exfalso. apply (Qlt_not_le _ _ H E).
Qed.

Lemma Qlt_bool_false (a b : Q) : Qlt_bool a b = false <-> (b <= a)%Q.
Proof.
  unfold Qlt_bool. rewrite negb_false_iff. apply Qle_bool_iff.
Qed.

(** ** Robot control *)

Section RobotControl.

Import en.RobotAction.
Local Open Scope Q_scope.

Variable self : en.Robot.t.
Variable move_action : Z.

Let radius := en.Robot.radius (en.Robot.attrs self).
Let after := en.Robot.set_action self move_action.
Let target_speed := en.Robot.target_speed (en.Robot.attrs after).
Let rel_turn_angle := en.Robot.rel_turn_angle (en.Robot.attrs after).
Let target_finger_angle := en.Robot.target_finger_angle (en.Robot.rig after).
Let pressed := en.flag_set move_action.

(** C4. [Robot.set_action] on any flag bitmask, for a robot of positive
    radius: UP and DOWN together give a target speed of exactly zero; UP
    alone gives the positive speed 4 * radius and DOWN alone the negative
    speed -3 * radius, smaller in magnitude; with neither LEFT nor RIGHT
    the relative turn rate is zero, LEFT alone gives +1.5 and RIGHT
    alone -1.5; OPEN sets the target finger angle to the outward limit,
    CLOSE (without OPEN) to minus the inward limit, and with neither the
    target finger angle is left as it was. *)
Theorem set_action_decodes_flags :
  0 < radius ->
  (pressed UP = true -> pressed DOWN = true -> target_speed = 0) /\
  (pressed UP = true -> pressed DOWN = false ->
     0 < target_speed /\ target_speed == 4 * radius) /\
  (pressed UP = false -> pressed DOWN = true ->
     target_speed < 0 /\ target_speed == - (3 * radius) /\
     Qabs target_speed < 4 * radius) /\
  (pressed LEFT = false -> pressed RIGHT = false -> rel_turn_angle = 0) /\
  (pressed LEFT = true -> pressed RIGHT = false -> rel_turn_angle == 3 # 2) /\
  (pressed LEFT = false -> pressed RIGHT = true ->
     rel_turn_angle == - (3 # 2)) /\
  (pressed OPEN = true ->
     target_finger_angle
     = en.Robot.finger_rot_limit_outer (en.Robot.attrs self)) /\
  (pressed OPEN = false -> pressed CLOSE = true ->
     target_finger_angle
     = - en.Robot.finger_rot_limit_inner (en.Robot.attrs self)) /\
  (pressed OPEN = false -> pressed CLOSE = false ->
     target_finger_angle = en.Robot.target_finger_angle (en.Robot.rig self)).
Proof.
  intros Hrad.
  subst target_speed rel_turn_angle target_finger_angle after pressed.
  unfold en.Robot.set_action; cbn [en.Robot.attrs en.Robot.rig
    en.Robot.set_targets en.Robot.set_target_finger_angle
    en.Robot.target_speed en.Robot.rel_turn_angle
    en.Robot.target_finger_angle].
  fold radius.
  repeat split; intros; repeat match goal with
                               | H : en.flag_set _ _ = _ |- _ => rewrite H
                               end; cbn [andb]; try reflexivity; try lra.
  rewrite Qabs_neg by lra. lra.
Qed.

(** C10. [Robot.set_action] and the gripper flags.  When OPEN and CLOSE
    are both set, the target finger angle becomes the outward limit, the
    same as with OPEN alone: OPEN has priority.  CLOSE counts only
    without OPEN: then the target becomes minus the inward limit.  With
    neither flag the target stays as it was.  So among the flag words
    that have OPEN, the target does not depend on CLOSE (nor on any other
    flag). *)
Theorem set_action_open_has_priority :
  (pressed OPEN = true -> pressed CLOSE = true ->
     target_finger_angle
     = en.Robot.finger_rot_limit_outer (en.Robot.attrs self)) /\
  (pressed OPEN = true -> pressed CLOSE = false ->
     target_finger_angle
     = en.Robot.finger_rot_limit_outer (en.Robot.attrs self)) /\
  (pressed OPEN = false -> pressed CLOSE = true ->
     target_finger_angle
     = - en.Robot.finger_rot_limit_inner (en.Robot.attrs self)) /\
  (pressed OPEN = false -> pressed CLOSE = false ->
     target_finger_angle = en.Robot.target_finger_angle (en.Robot.rig self)) /\
  (forall other : Z,
     pressed OPEN = true -> en.flag_set other OPEN = true ->
     en.Robot.target_finger_angle
       (en.Robot.rig (en.Robot.set_action self other))
     = target_finger_angle).
Proof.
  subst target_finger_angle after pressed.
  unfold en.Robot.set_action.
  cbn [en.Robot.rig en.Robot.set_target_finger_angle
       en.Robot.target_finger_angle].
  split; [|split; [|split; [|split]]].
  - intros Hopen _. rewrite Hopen. reflexivity.
  - intros Hopen _. rewrite Hopen. reflexivity.
  - intros Hopen Hclose. rewrite Hopen, Hclose. reflexivity.
  - intros Hopen Hclose. rewrite Hopen, Hclose. reflexivity.
  - intros other Hopen Hother. rewrite Hopen, Hother. reflexivity.
Qed.

End RobotControl.

(** ** Finger motors *)

Lemma py_min_Qmin (a b : Q) : (py_min a b == Qmin a b)%Q.
Proof.
  unfold py_min. destruct (Qlt_bool b a) eqn:E.
  - apply Qlt_bool_iff in E. symmetry. apply Q.min_r. lra.
  - apply Qlt_bool_false in E. symmetry. apply Q.min_l. exact E.
Qed.

Lemma py_max_Qmax (a b : Q) : (py_max a b == Qmax a b)%Q.
Proof.
  unfold py_max. destruct (Qlt_bool a b) eqn:E.
  - apply Qlt_bool_iff in E. symmetry. apply Q.max_r. lra.
  - apply Qlt_bool_false in E. symmetry. apply Q.max_l. exact E.
Qed.

Lemma py_clamp_bounds (x : Q) :
  (- (1) <= py_max (- (1)) (py_min 1 x) <= 1)%Q.
Proof.
  unfold py_max, py_min.
  destruct (Qlt_bool x 1) eqn:E1.
  - apply Qlt_bool_iff in E1.
    destruct (Qlt_bool (- (1)) x) eqn:E2.
    + apply Qlt_bool_iff in E2. lra.
    + lra.
  - destruct (Qlt_bool (- (1)) 1) eqn:E2; lra.
Qed.

Lemma update_finger_motors_lookup (self : en.Robot.t) :
  forall (bodies : list pm.Body) (motors : list pm.SimpleMotor)
         (sides : list Q) (i : nat) finger_body finger_motor finger_side,
    bodies !! i = Some finger_body ->
    motors !! i = Some finger_motor ->
    sides !! i = Some finger_side ->
    en.Robot.update_finger_motors self bodies motors sides !! i
    = Some (pm.set_rate finger_motor
              (en.Robot.finger_target_rate self finger_body finger_side)).
Proof.
  induction bodies as [|b bodies IH]; intros motors sides i fb fm fs Hb Hm Hs.
  - destruct i; discriminate.
  - destruct motors as [|m motors]; [destruct i; discriminate|].
    destruct sides as [|s sides]; [destruct i; discriminate|].
    destruct i as [|i]; cbn in *.
    + congruence.
    + eapply IH; eassumption.
Qed.

Lemma finger_target_rate_clamped (self : en.Robot.t) (finger_body : pm.Body)
    (finger_side : Q) :
  let angle_error :=
    (pm.angle finger_body - pm.angle (en.Robot.robot_body (en.Robot.rig self))
     + finger_side * en.Robot.target_finger_angle (en.Robot.rig self))%Q in
  let clamped := Qmax (- (1)) (Qmin 1 (angle_error * 10)) in
  let rate := en.Robot.finger_target_rate self finger_body finger_side in
  ((Qabs clamped < 1 # 10000 -> rate = 0) /\
   (1 # 10000 <= Qabs clamped -> rate == clamped) /\
   - (1) <= rate <= 1 /\
   (rate = 0 \/ 1 # 10000 <= Qabs rate))%Q.
Proof.
  intros angle_error clamped rate.
  unfold en.Robot.finger_target_rate in rate. fold angle_error in rate.
  set (target_rate := py_max (- (1)) (py_min 1 (angle_error * 10))) in rate.
  assert (Heq : (target_rate == clamped)%Q).
  { subst target_rate clamped. rewrite py_max_Qmax.
    apply Q.max_compat; [reflexivity | apply py_min_Qmin]. }
  assert (Hb : (- (1) <= target_rate <= 1)%Q) by apply py_clamp_bounds.
  subst rate. destruct (Qlt_bool (Qabs target_rate) (1 # 10000)) eqn:E.
  - apply Qlt_bool_iff in E. rewrite Heq in E.
    split; [reflexivity|]. split; [intros H; lra|].
    split; [lra|]. left; reflexivity.
  - apply Qlt_bool_false in E.
    split; [intros H; rewrite Heq in E; lra|]. split; [intros _; exact Heq|].
    split; [exact Hb|]. right; exact E.
Qed.

Section RobotUpdate.

Local Open Scope Q_scope.

Variable rotation_vector : Q -> Vec2d.
Variable self : en.Robot.t.
Variable dt : Q.

(** C8. After [Robot.update(dt)], the rate of each finger motor (each
    finger [i] with its body, its motor and its side -1 or 1) is the
    finger's angle error times 10 clamped to [-1, 1], replaced by exactly
    0 when the absolute value of that is below 1e-4; so the rate lies in
    [-1, 1] and is exactly zero or of magnitude at least 1e-4. *)
Theorem update_sets_finger_motor_rates
    (i : nat) (finger_body : pm.Body) (finger_motor : pm.SimpleMotor)
    (finger_side : Q) :
  en.Robot.finger_bodies (en.Robot.rig self) !! i = Some finger_body ->
  en.Robot.finger_motors (en.Robot.rig self) !! i = Some finger_motor ->
  [- (1); 1] !! i = Some finger_side ->
  let angle_error :=
    pm.angle finger_body - pm.angle (en.Robot.robot_body (en.Robot.rig self))
    + finger_side * en.Robot.target_finger_angle (en.Robot.rig self) in
  let clamped := Qmax (- (1)) (Qmin 1 (angle_error * 10)) in
  exists motor' : pm.SimpleMotor,
    en.Robot.finger_motors
      (en.Robot.rig (en.Robot.update rotation_vector self dt)) !! i
    = Some motor' /\
    (Qabs clamped < 1 # 10000 -> pm.rate motor' = 0) /\
    (1 # 10000 <= Qabs clamped -> pm.rate motor' == clamped) /\
    - (1) <= pm.rate motor' <= 1 /\
    (pm.rate motor' = 0 \/ 1 # 10000 <= Qabs (pm.rate motor')).
Proof.
  intros Hb Hm Hs angle_error clamped.
  exists (pm.set_rate finger_motor
            (en.Robot.finger_target_rate self finger_body finger_side)).
  split.
  - unfold en.Robot.update. cbn [en.Robot.rig en.Robot.set_control
      en.Robot.finger_motors].
    apply update_finger_motors_lookup; assumption.
  - cbn [pm.set_rate pm.rate].
    apply finger_target_rate_clamped.
Qed.

End RobotUpdate.

(** A robot with a finger 0.05 rad off target: after [update] its motor
    runs at rate 0.5. *)
Lemma update_sets_finger_motor_rates_witness :
  exists motor' : pm.SimpleMotor,
    en.Robot.finger_motors
      (en.Robot.rig (en.Robot.update Fixtures.upright Fixtures.robot (1 # 200)))
      !! 0%nat = Some motor' /\
    (pm.rate motor' == 1 # 2)%Q.
Proof.
  destruct (update_sets_finger_motor_rates Fixtures.upright Fixtures.robot
              (1 # 200) 0 (Fixtures.finger (- (7 # 40)) (1 # 20))
              Fixtures.motor (- (1))%Q eq_refl eq_refl eq_refl)
    as (motor' & Hlook & _ & Hrate & _).
  exists motor'. split; [exact Hlook|].
  rewrite Hrate; [reflexivity | discriminate].
Defined.

(** The robot of radius 0.2 with UP and DOWN both pressed (flags 3) stands
    still, and with LEFT alone (flags 4) it turns at +1.5. *)
Lemma set_action_decodes_flags_witness :
  (0 < en.Robot.radius (en.Robot.attrs Fixtures.robot))%Q /\
  en.Robot.target_speed (en.Robot.attrs (en.Robot.set_action Fixtures.robot 3))
  = 0%Q /\
  (en.Robot.rel_turn_angle (en.Robot.attrs (en.Robot.set_action Fixtures.robot 4))
   == 3 # 2)%Q.
Proof.
  assert (Hrad : (0 < en.Robot.radius (en.Robot.attrs Fixtures.robot))%Q)
    by reflexivity.
  split; [exact Hrad|]. split.
  - apply (set_action_decodes_flags Fixtures.robot 3 Hrad); reflexivity.
  - apply (set_action_decodes_flags Fixtures.robot 4 Hrad); reflexivity.
Defined.

(** The example robot (limits pi/8, target 0): OPEN | CLOSE = 48 and
    OPEN = 16 open the fingers, CLOSE = 32 closes them, 0 leaves the
    target. *)
Lemma set_action_open_has_priority_witness :
  let target := fun move_action : Z =>
    en.Robot.target_finger_angle
      (en.Robot.rig (en.Robot.set_action Fixtures.robot move_action)) in
  target 48 = (math_pi / 8)%Q /\
  target 16 = (math_pi / 8)%Q /\
  target 32 = (- (math_pi / 8))%Q /\
  target 0 = 0%Q.
Proof.
  intros target. subst target. cbv beta.
  split; [|split; [|split]].
  - destruct (set_action_open_has_priority Fixtures.robot 48) as (H & _).
    apply H; reflexivity.
  - destruct (set_action_open_has_priority Fixtures.robot 16) as (_ & H & _).
    apply H; reflexivity.
  - destruct (set_action_open_has_priority Fixtures.robot 32)
      as (_ & _ & H & _).
    apply H; reflexivity.
  - destruct (set_action_open_has_priority Fixtures.robot 0)
      as (_ & _ & _ & H & _).
    apply H; reflexivity.
Defined.

(** ** Shapes *)

Section ShapeConstruction.

Variable COLOURS_RGB : gmap string (Q * Q * Q).

(** C9, as the code has it.  A shape type outside the enum is not
    rejected when the [Shape] is constructed: with a colour name of the
    table, [Shape(...)] returns the object, shape type stored as given.
    The error comes from [Shape.setup]: called on that object with a
    viewer and a space, it raises [NotImplementedError]. *)
Theorem unimplemented_shape_type_fails_in_setup
    (repr colour_name : string) (rgb : Q * Q * Q) (shape_size : Q)
    (init_pos : Vec2d) (init_angle mass : Q)
    (viewer : gym_render.Viewer) (space : pm.Space) :
  COLOURS_RGB !! colour_name = Some rgb ->
  exists shape : en.Shape.Init,
    en.Shape.__init__ COLOURS_RGB (en.NotMember repr) colour_name shape_size
                      init_pos init_angle mass = Ok shape /\
    en.Shape.shape_type shape = en.NotMember repr /\
    en.Shape.setup shape [ObjViewer viewer; ObjSpace space]
    = Raise NotImplementedError.
Proof.
  intros Hcol. eexists. split; [|split].
  - unfold en.Shape.__init__, en.colour_lookup. rewrite Hcol. reflexivity.
  - reflexivity.
  - reflexivity.
Qed.

End ShapeConstruction.

(** C9 as stated fails: a grey "hexagon" is constructed without an error;
    the constructor returns the object, shape type stored unchecked. *)
Lemma unimplemented_shape_type_constructs :
  en.Shape.__init__ Fixtures.colours (en.NotMember "hexagon") "grey"
    (3 # 25) (0, 0)%Q 0 (1 # 2)
  = Ok {| en.Shape.shape_type := en.NotMember "hexagon";
          en.Shape.shape_size := 3 # 25;
          en.Shape.colour := ((1 # 2)%Q, (1 # 2)%Q, (1 # 2)%Q);
          en.Shape.init_pos := (0, 0)%Q;
          en.Shape.init_angle := 0;
          en.Shape.mass := 1 # 2 |}.
Proof. reflexivity. Qed.

Lemma unimplemented_shape_type_fails_in_setup_witness :
  exists shape : en.Shape.Init,
    en.Shape.__init__ Fixtures.colours (en.NotMember "hexagon") "grey"
                      (3 # 25) (0, 0)%Q 0 (1 # 2) = Ok shape /\
    en.Shape.setup shape [ObjViewer (gym_render.Viewer_init 4 4 false);
                          ObjSpace pm.Space_init]
    = Raise NotImplementedError.
Proof.
  destruct (unimplemented_shape_type_fails_in_setup Fixtures.colours
              "hexagon" "grey" ((1 # 2)%Q, (1 # 2)%Q, (1 # 2)%Q) (3 # 25)
              (0, 0)%Q 0 (1 # 2) (gym_render.Viewer_init 4 4 false)
              pm.Space_init eq_refl)
    as (shape & Hinit & _ & Hsetup).
  exists shape. split; assumption.
Defined.

(** ** The action table *)

Section ActionTableLemmas.

Variable flag_table : list (Z * Z * Z).

Lemma numbered_fst :
  (en.numbered flag_table).*1 = seqZ 0 (Z.of_nat (length flag_table)).
Proof.
  unfold en.numbered. apply fst_zip. rewrite length_seqZ. lia.
Qed.

Lemma numbered_snd : (en.numbered flag_table).*2 = flag_table.
Proof.
  unfold en.numbered. apply snd_zip. rewrite length_seqZ. lia.
Qed.

Lemma elem_of_numbered (a : Z) (flags : Z * Z * Z) :
  (a, flags) ∈ en.numbered flag_table
  <-> 0 <= a /\ flag_table !! Z.to_nat a = Some flags.
Proof.
  unfold en.numbered. rewrite list_elem_of_lookup. split.
  - intros [i Hi]. apply lookup_zip_with_Some in Hi.
    destruct Hi as (x & y & Heq & Hx & Hy). inversion Heq; subst.
    apply lookup_seqZ in Hx. destruct Hx as [-> _].
    split; [lia|]. replace (Z.to_nat (0 + Z.of_nat i)) with i by lia.
    exact Hy.
  - intros [Ha Hl]. exists (Z.to_nat a). apply lookup_zip_with_Some.
    exists a, flags. split; [reflexivity|]. split; [|exact Hl].
    apply lookup_seqZ. apply lookup_lt_Some in Hl. lia.
Qed.

Lemma id_to_flags_lookup (a : Z) (flags : Z * Z * Z) :
  en.id_to_flags flag_table !! a = Some flags
  <-> 0 <= a /\ flag_table !! Z.to_nat a = Some flags.
Proof.
  unfold en.id_to_flags. rewrite <- elem_of_list_to_map.
  - apply elem_of_numbered.
  - rewrite numbered_fst. apply NoDup_seqZ.
Qed.

Hypothesis flag_table_NoDup : NoDup flag_table.

Lemma flags_to_id_lookup (a : Z) (flags : Z * Z * Z) :
  en.flags_to_id flag_table !! flags = Some a
  <-> 0 <= a /\ flag_table !! Z.to_nat a = Some flags.
Proof.
  unfold en.flags_to_id. rewrite <- elem_of_list_to_map.
  - rewrite <- elem_of_numbered. rewrite list_elem_of_fmap. split.
    + intros [[a' flags'] [Heq Hin]]. cbn in Heq. congruence.
    + intros Hin. exists (a, flags). split; [reflexivity | exact Hin].
  - rewrite <- list_fmap_compose.
    rewrite <- numbered_snd in flag_table_NoDup.
    erewrite list_fmap_ext; [exact flag_table_NoDup|].
    intros i [a' f'] _. reflexivity.
Qed.

End ActionTableLemmas.

Lemma ACTION_NUMS_FLAGS_NAMES_NoDup : NoDup en.ACTION_NUMS_FLAGS_NAMES.
Proof. apply (bool_decide_unpack _). vm_compute. exact I. Qed.

(** C6. The two table lookups of [BaseEnv] are inverse to each other: for
    every action index [a] in [0, N), [N] the size of the table,
    [action_to_flags a] is a flag triple that [flags_to_action] maps back
    to [a]; and every triple [t] of the table has an index in [0, N) that
    [flags_to_action] returns and [action_to_flags] maps back to [t]. *)
Theorem action_flags_round_trip :
  let N := Z.of_nat (length en.ACTION_NUMS_FLAGS_NAMES) in
  (forall a : Z, 0 <= a < N ->
     exists t : Z * Z * Z,
       base_env.action_to_flags a = Ok t /\
       t ∈ en.ACTION_NUMS_FLAGS_NAMES /\
       base_env.flags_to_action t = Ok a) /\
  (forall t : Z * Z * Z, t ∈ en.ACTION_NUMS_FLAGS_NAMES ->
     exists a : Z,
       base_env.flags_to_action t = Ok a /\
       0 <= a < N /\
       base_env.action_to_flags a = Ok t).
Proof.
  intros N. pose proof ACTION_NUMS_FLAGS_NAMES_NoDup as Hnd.
  unfold base_env.action_to_flags, base_env.flags_to_action,
    en.ACTION_ID_TO_FLAGS, en.FLAGS_TO_ACTION_ID.
  split.
  - intros a [Ha0 HaN].
    destruct (en.ACTION_NUMS_FLAGS_NAMES !! Z.to_nat a) as [t|] eqn:Ht.
    + exists t.
      rewrite (proj2 (id_to_flags_lookup _ a t) (conj Ha0 Ht)).
      rewrite (proj2 (flags_to_id_lookup _ Hnd a t) (conj Ha0 Ht)).
      split; [reflexivity|]. split; [|reflexivity].
      apply list_elem_of_lookup. eauto.
    + apply lookup_ge_None in Ht. subst N. lia.
  - intros t Hin. apply list_elem_of_lookup in Hin. destruct Hin as [i Hi].
    exists (Z.of_nat i).
    assert (Hi' : en.ACTION_NUMS_FLAGS_NAMES !! Z.to_nat (Z.of_nat i) = Some t)
      by (rewrite Nat2Z.id; exact Hi).
    rewrite (proj2 (flags_to_id_lookup _ Hnd (Z.of_nat i) t)
                   (conj (Nat2Z.is_nonneg i) Hi')).
    rewrite (proj2 (id_to_flags_lookup _ (Z.of_nat i) t)
                   (conj (Nat2Z.is_nonneg i) Hi')).
    split; [reflexivity|]. split; [|reflexivity].
    apply lookup_lt_Some in Hi. subst N. lia.
Qed.

(** The table has 18 entries, action 0 is the neutral one, and an index
    outside the table is a [KeyError]. *)
Example action_table_values :
  length en.ACTION_NUMS_FLAGS_NAMES = 18%nat /\
  base_env.action_to_flags 0 = Ok (0, 0, 16) /\
  base_env.action_to_flags 17 = Ok (2, 8, 32) /\
  base_env.flags_to_action (1, 4, 32) = Ok 9 /\
  base_env.action_to_flags 18 = Raise KeyError.
Proof. vm_compute. repeat split. Qed.

(** ** The viewer *)

Lemma chunks_length {A : Type} (k n : nat) (l : list A) :
  length (gym_render.chunks k n l) = k.
Proof.
  revert l. induction k as [|k IH]; intros l; cbn; [reflexivity|].
  rewrite IH. reflexivity.
Qed.

Lemma chunks_lookup {A : Type} (k n : nat) (l : list A) (i : nat) :
  (i < k)%nat ->
  gym_render.chunks k n l !! i = Some (take n (drop (i * n) l)).
Proof.
  revert l i. induction k as [|k IH]; intros l i Hi; [lia|].
  destruct i as [|i]; cbn.
  - reflexivity.
  - rewrite IH by lia. rewrite drop_drop. reflexivity.
Qed.

(** The byte at row [i], column [j], channel [c] of the reshaped buffer. *)
Lemma reshape_hw4_lookup (h w : nat) (data : list byte) (arr : gym_render.Array3)
    (i j c : nat) :
  gym_render.reshape_hw4 h w data = Ok arr ->
  (i < h)%nat -> (j < w)%nat -> (c < 4)%nat ->
  exists row px,
    arr !! i = Some row /\ row !! j = Some px /\
    length row = w /\ length px = 4%nat /\
    px !! c = data !! (4 * (i * w + j) + c)%nat.
Proof.
  unfold gym_render.reshape_hw4.
  destruct (length data =? h * w * 4)%nat eqn:Hlen; [|discriminate].
  apply Nat.eqb_eq in Hlen. intros [= <-] Hi Hj Hc.
  exists (gym_render.chunks w 4 (take (w * 4) (drop (i * (w * 4)) data))),
         (take 4 (drop (j * 4) (take (w * 4) (drop (i * (w * 4)) data)))).
  split; [|split; [|split; [|split]]].
  - rewrite list_lookup_fmap, chunks_lookup by assumption. reflexivity.
  - apply chunks_lookup. assumption.
  - apply chunks_length.
  - rewrite length_take, length_drop, length_take, length_drop. nia.
  - rewrite lookup_take_lt by lia. rewrite lookup_drop.
    rewrite lookup_take_lt by nia. rewrite lookup_drop.
    f_equal. nia.
Qed.

Section ViewerRender.

Variable self : gym_render.Viewer.
Variable buffer : gym_render.ColorBuffer.

Let h := gym_render.buf_height buffer.
Let w := gym_render.buf_width buffer.
Let data := gym_render.buf_data buffer.

(** C7, as the code has it.  [Viewer.render] asked for pixels, on a
    colour buffer of [h] rows and [w] columns of RGBA bytes, returns a
    byte array of shape (h, w, 3), where [h] and [w] are the height and
    width of the colour buffer itself (not the size the viewer was
    configured with); row [i] of the output is row [h-1-i] of the buffer
    cut down to its first three channels: the byte at [i, j, c] is the
    buffer's byte number [4 * ((h-1-i) * w + j) + c]. *)
Theorem render_returns_flipped_buffer :
  length data = (h * w * 4)%nat ->
  exists (arr : gym_render.Array3) (self' : gym_render.Viewer),
    gym_render.render self buffer true = Ok (gym_render.RArray arr, self') /\
    length arr = h /\
    forall i j c : nat, (i < h)%nat -> (j < w)%nat -> (c < 3)%nat ->
      exists (row : list (list byte)) (px : list byte),
        arr !! i = Some row /\ length row = w /\
        row !! j = Some px /\ length px = 3%nat /\
        px !! c = data !! (4 * ((h - 1 - i) * w + j) + c)%nat.
Proof.
  intros Hlen. unfold gym_render.render. fold h w data.
  destruct (gym_render.reshape_hw4 h w data) as [arr0|e] eqn:Hre.
  2:{ unfold gym_render.reshape_hw4 in Hre.
      rewrite Hlen, Nat.eqb_refl in Hre. discriminate. }
  cbn. eexists _, _. split; [reflexivity|].
  assert (Hlen0 : length arr0 = h).
  { unfold gym_render.reshape_hw4 in Hre.
    rewrite Hlen, Nat.eqb_refl in Hre. injection Hre as <-.
    rewrite length_fmap. apply chunks_length. }
  unfold gym_render.flip_rgb. split.
  - rewrite length_fmap, length_reverse. exact Hlen0.
  - intros i j c Hi Hj Hc.
    destruct (reshape_hw4_lookup h w data arr0 (h - 1 - i) j c Hre)
      as (row & px & Hrow & Hpx & Hrl & Hpl & Hbyte); [lia..|].
    exists (take 3 <$> row), (take 3 px).
    split; [|split; [|split; [|split]]].
    + rewrite list_lookup_fmap, reverse_lookup by lia.
      rewrite Hlen0. replace (h - S i)%nat with (h - 1 - i)%nat by lia.
      rewrite Hrow. reflexivity.
    + rewrite length_fmap. exact Hrl.
    + rewrite list_lookup_fmap, Hpx. reflexivity.
    + rewrite length_take. lia.
    + rewrite lookup_take_lt by lia. exact Hbyte.
Qed.

End ViewerRender.

Lemma render_returns_flipped_buffer_witness :
  exists (arr : gym_render.Array3) (self' : gym_render.Viewer),
    gym_render.render (gym_render.Viewer_init 2 2 false) Fixtures.one_pixel_buffer true
    = Ok (gym_render.RArray arr, self') /\
    length arr = 1%nat.
Proof.
  destruct (render_returns_flipped_buffer (gym_render.Viewer_init 2 2 false)
              Fixtures.one_pixel_buffer eq_refl) as (arr & self' & Hr & Hl & _).
  exists arr, self'. split; assumption.
Defined.

(** C7 as stated fails: the viewer was configured with height 2 and width
    2, and the array returned has the shape (1, 1, 3) of the colour
    buffer. *)
Lemma render_shape_counterexample :
  exists self' : gym_render.Viewer,
    gym_render.render (gym_render.Viewer_init 2 2 false) Fixtures.one_pixel_buffer true
    = Ok (gym_render.RArray [[[x01; x02; x03]]], self') /\
    Z.of_nat (length [[[x01; x02; x03]]])
    <> gym_render.height (gym_render.Viewer_init 2 2 false).
Proof.
  eexists. split; [reflexivity | discriminate].
Qed.

(** ** The physics loop *)

Section PhysicsLoop.

Context {E0 E : Type}.
Context {EM : base_env.EntityModule E0 E} {BE : base_env.Backend E}.

Lemma phys_substep_calls (dt : Q) (self : base_env.BaseEnv E) :
  base_env.calls (base_env.phys_substep dt self)
  = base_env.calls self
    ++ base_env.substep_calls (length (base_env._entities self)) dt
  /\ length (base_env._entities (base_env.phys_substep dt self))
     = length (base_env._entities self)
  /\ base_env.config (base_env.phys_substep dt self) = base_env.config self
  /\ base_env._robot (base_env.phys_substep dt self) = base_env._robot self
  /\ base_env._episode_steps (base_env.phys_substep dt self)
     = base_env._episode_steps self
  /\ base_env.viewer (base_env.phys_substep dt self) = base_env.viewer self.
Proof.
  unfold base_env.phys_substep, base_env.substep_calls. cbn.
  rewrite length_imap, !length_map, <- app_assoc. repeat split.
Qed.

Lemma phys_substeps_calls (dt : Q) (k : nat) (self : base_env.BaseEnv E) :
  let self' := Nat.iter k (base_env.phys_substep dt) self in
  base_env.calls self'
  = base_env.calls self
    ++ concat (replicate k
                 (base_env.substep_calls (length (base_env._entities self)) dt))
  /\ length (base_env._entities self') = length (base_env._entities self)
  /\ base_env.config self' = base_env.config self
  /\ base_env._robot self' = base_env._robot self
  /\ base_env._episode_steps self' = base_env._episode_steps self
  /\ base_env.viewer self' = base_env.viewer self.
Proof.
  intros self'. subst self'. induction k as [|k IH].
  - cbn. rewrite app_nil_r. repeat split.
  - change (Nat.iter (S k) (base_env.phys_substep dt) self)
      with (base_env.phys_substep dt
              (Nat.iter k (base_env.phys_substep dt) self)).
    destruct IH as (Hc & Hl & Hcfg & Hr & Hs & Hv).
    destruct (phys_substep_calls dt (Nat.iter k (base_env.phys_substep dt) self))
      as (Hc' & Hl' & Hcfg' & Hr' & Hs' & Hv').
    rewrite Hc', Hl', Hcfg', Hr', Hs', Hv', Hc, Hl.
    repeat split; try assumption.
    rewrite <- app_assoc. f_equal.
    rewrite replicate_S_end, concat_app. cbn.
    rewrite app_nil_r. reflexivity.
Qed.

(** C2, as the code runs.  With a frame rate other than zero, one
    execution of [_phys_steps_on_frame] performs exactly 10 physics
    sub-steps, whatever [phys_steps] the environment was configured
    with: each sub-step calls [update(dt)] on every entity of the list,
    in order, and then [space.step(dt)] once, with dt = 1/fps/10. *)
Theorem phys_steps_on_frame_runs_ten_substeps (self : base_env.BaseEnv E) :
  ~ (base_env.fps (base_env.config self) == 0)%Q ->
  let dt := (1 / base_env.fps (base_env.config self) / inject_Z 10)%Q in
  exists self' : base_env.BaseEnv E,
    base_env._phys_steps_on_frame self = Ok self' /\
    base_env.calls self'
    = base_env.calls self
      ++ concat (replicate 10
                   (base_env.substep_calls (length (base_env._entities self)) dt)).
Proof.
  intros Hfps dt. unfold base_env._phys_steps_on_frame.
  destruct (Qeq_bool (base_env.fps (base_env.config self)) 0) eqn:E0'.
  - apply Qeq_bool_iff in E0'. contradiction.
  - cbn [mbind Result_bind]. eexists. split; [reflexivity|].
    apply (phys_substeps_calls dt 10 self).
Qed.

End PhysicsLoop.

(** An environment configured with [phys_steps = 5] and [fps = 20]: one
    frame still makes 10 calls to [space.step], each of 1/200 s. *)
Lemma phys_steps_on_frame_runs_ten_substeps_witness :
  base_env.phys_steps (base_env.config Fixtures.env) = 5 /\
  exists self' : base_env.BaseEnv en.Entity,
    base_env._phys_steps_on_frame
      (EM := en_module Fixtures.colours Fixtures.upright)
      (BE := Fixtures.still en.Entity) Fixtures.env = Ok self' /\
    base_env.calls self'
    = concat (replicate 10
                [base_env.CallUpdate 0 (1 / 20 / inject_Z 10)%Q;
                 base_env.CallUpdate 1 (1 / 20 / inject_Z 10)%Q;
                 base_env.CallSpaceStep (1 / 20 / inject_Z 10)%Q]).
Proof.
  split; [reflexivity|].
  apply (phys_steps_on_frame_runs_ten_substeps
           (EM := en_module Fixtures.colours Fixtures.upright)
           (BE := Fixtures.still en.Entity) Fixtures.env).
  discriminate.
Defined.

(** ** Setting entities up *)

Lemma Entity_setup_three_args (a b c : PyObj) :
  en.Entity_setup [a; b; c] = Raise TypeError.
Proof. destruct a, b; reflexivity. Qed.

Lemma en_setup_three_args (COLOURS_RGB : gmap string (Q * Q * Q))
    (entity : en.EntityNew) (a b c : PyObj) :
  en.setup COLOURS_RGB entity [a; b; c] = Raise TypeError.
Proof.
  destruct entity; cbn [en.setup];
    unfold en.Robot.setup, en.ArenaBoundaries.setup, en.Shape.setup;
    rewrite Entity_setup_three_args; reflexivity.
Qed.

Section SetupOfEntities.

Variable COLOURS_RGB : gmap string (Q * Q * Q).
Variable rotation_vector : Q -> Vec2d.

Let entities_py := en_module COLOURS_RGB rotation_vector.

Lemma add_entities_TypeError
    (self : base_env.BaseEnv en.Entity) (entity : en.EntityNew)
    (entities : list en.EntityNew) :
  base_env.add_entities (EM := entities_py) self (entity :: entities)
  = Raise TypeError.
Proof.
  cbn [base_env.add_entities]. cbn [base_env.setup entities_py en_module].
  rewrite en_setup_three_args. reflexivity.
Qed.

(** C3, as the code runs.  [add_entities] calls [setup] with three
    arguments (viewer, space, physics variables), and the [setup] of
    every class of entities.py hands its arguments to
    [Entity.setup(self, viewer, space)], which takes two: in every state
    of the environment, adding any entity of entities.py raises
    [TypeError], so no [setup] completes; and [reset], which begins by
    adding the arena, raises [TypeError] in every environment made of the
    classes of entities.py. *)
Theorem add_entities_setup_raises
    (BE : base_env.Backend en.Entity)
    (SC : base_env.Scenario en.EntityNew en.Entity)
    (self : base_env.BaseEnv en.Entity) :
  (forall (entity : en.EntityNew) (entities : list en.EntityNew),
     base_env.add_entities (EM := entities_py) self (entity :: entities)
     = Raise TypeError) /\
  base_env.reset (EM := entities_py) self = Raise TypeError.
Proof.
  split; [apply add_entities_TypeError|].
  unfold base_env.reset. cbn [base_env.ARENA_BOUNDS_LRBT].
  rewrite add_entities_TypeError. reflexivity.
Qed.

(** Called with the two arguments it accepts, [Robot.setup] registers its
    joints with the force limits written in the code: 3 and 1 for the
    control joints, 2 for each finger motor.  No [PhysicsVariables] takes
    part. *)
Lemma Robot_setup_force_limits (robot : en.Robot.Init)
    (viewer : gym_render.Viewer) (space : pm.Space) (grey : Q * Q * Q) :
  COLOURS_RGB !! "grey" = Some grey ->
  exists live viewer' space',
    en.Robot.setup COLOURS_RGB robot [ObjViewer viewer; ObjSpace space]
    = Ok (live, viewer', space') /\
    pm.max_forces space' = pm.max_forces space ++ [3; 1; 2; 2]%Q /\
    pm.motor_max_force <$> en.Robot.finger_motors (en.Robot.rig live)
    = [2; 2]%Q.
Proof.
  intros Hgrey. unfold en.Robot.setup, en.colour_lookup. rewrite Hgrey.
  cbn. eexists _, _, _. split; [reflexivity|]. split; [|reflexivity].
  unfold pm.max_forces. cbn. rewrite !omap_app. cbn.
  rewrite <- !app_assoc. reflexivity.
Qed.

(** Likewise [Shape.setup]: 1.5 and 0.1. *)
Lemma Shape_setup_force_limits (shape : en.Shape.Init) (t : en.ShapeType)
    (viewer : gym_render.Viewer) (space : pm.Space) :
  en.Shape.shape_type shape = en.Member t ->
  exists live viewer' space',
    en.Shape.setup shape [ObjViewer viewer; ObjSpace space]
    = Ok (live, viewer', space') /\
    pm.max_forces space' = pm.max_forces space ++ [3 # 2; 1 # 10]%Q.
Proof.
  intros Ht. unfold en.Shape.setup, en.Shape.setup_body. rewrite Ht.
  destruct t; cbn; (eexists _, _, _; split; [reflexivity|]);
    unfold pm.max_forces; cbn; rewrite !omap_app; cbn;
    rewrite <- !app_assoc; reflexivity.
Qed.

End SetupOfEntities.

(** ** Stepping *)

Lemma action_to_flags_valid (action : Z) :
  base_env.valid_action action -> exists flags, base_env.action_to_flags action = Ok flags.
Proof.
  intros [H0 HN]. unfold base_env.action_to_flags, en.ACTION_ID_TO_FLAGS.
  destruct (en.ACTION_NUMS_FLAGS_NAMES !! Z.to_nat action) as [t|] eqn:Ht.
  - exists t. rewrite (proj2 (id_to_flags_lookup _ action t) (conj H0 Ht)).
    reflexivity.
  - apply lookup_ge_None in Ht. lia.
Qed.

Section Stepping.

Context {E0 E : Type}.
Context {EM : base_env.EntityModule E0 E} {BE : base_env.Backend E}
        {SC : base_env.Scenario E0 E}.

Lemma viewer_render_ok (v : gym_render.Viewer) (ents : list E) :
  exists arr v',
    gym_render.render v (base_env.color_buffer v ents) true
    = Ok (gym_render.RArray arr, v').
Proof.
  unfold gym_render.render, gym_render.reshape_hw4.
  rewrite base_env.color_buffer_rgba, Nat.eqb_refl. cbn.
  eexists _, _. reflexivity.
Qed.

Lemma render_rgb_array_ok (self : base_env.BaseEnv E) :
  exists obs self',
    base_env.render self "rgb_array" = Ok (obs, self') /\
    base_env.carries self self' (base_env._episode_steps self).
Proof.
  unfold base_env.render. destruct (base_env.viewer self) as [v|] eqn:Hv.
  - cbn [String.eqb Ascii.eqb Bool.eqb py_assert mbind Result_bind].
    destruct (viewer_render_ok v
                (base_env._entities
                   (base_env.set_entities self
                      (map base_env.pre_draw (base_env._entities self)))))
      as (arr & v' & Hr).
    ok_step Hr. eexists _, _. split; [reflexivity|]. repeat split.
  - eexists _, _. split; [reflexivity|]. repeat split.
Qed.

Lemma render_with_viewer (self : base_env.BaseEnv E) (v : gym_render.Viewer) :
  base_env.viewer self = Some v ->
  exists arr self',
    base_env.render self "rgb_array" = Ok (Some (gym_render.RArray arr), self') /\
    base_env.carries self self' (base_env._episode_steps self) /\
    length (base_env._entities self') = length (base_env._entities self).
Proof.
  intros Hv. unfold base_env.render. rewrite Hv.
  cbn [String.eqb Ascii.eqb Bool.eqb py_assert mbind Result_bind].
  destruct (viewer_render_ok v
              (base_env._entities
                 (base_env.set_entities self
                    (map base_env.pre_draw (base_env._entities self)))))
    as (arr & v' & Hr).
  ok_step Hr. eexists _, _. split; [reflexivity|]. cbn.
  rewrite length_map. repeat split.
Qed.

Lemma phys_steps_on_frame_ok (self : base_env.BaseEnv E) :
  ~ (base_env.fps (base_env.config self) == 0)%Q ->
  exists self',
    base_env._phys_steps_on_frame self = Ok self' /\
    base_env.carries self self' (base_env._episode_steps self).
Proof.
  intros Hfps. unfold base_env._phys_steps_on_frame.
  destruct (Qeq_bool (base_env.fps (base_env.config self)) 0) eqn:Efps.
  - apply Qeq_bool_iff in Efps. contradiction.
  - cbn [mbind Result_bind]. eexists. split; [reflexivity|].
    match goal with
    | |- base_env.carries _ (Nat.iter ?k (base_env.phys_substep ?dt) _) _ =>
        destruct (phys_substeps_calls dt k self) as (_ & _ & Hc & Hr & Hs & _)
    end.
    repeat split; assumption.
Qed.

Lemma step_forward_ok (self : base_env.BaseEnv E) (action : Z) :
  base_env.valid_action action ->
  is_Some (base_env._robot self) ->
  ~ (base_env.fps (base_env.config self) == 0)%Q ->
  exists self',
    base_env.step_forward self action = Ok self' /\
    base_env.carries self self' (base_env._episode_steps self + 1).
Proof.
  intros Ha [i Hi] Hfps. unfold base_env.step_forward.
  destruct (action_to_flags_valid action Ha) as [[[ud lr] grip] Hflags].
  ok_step Hflags. unfold base_env.robot_set_action. rewrite Hi.
  cbn [mbind Result_bind].
  match goal with
  | |- context [base_env._phys_steps_on_frame ?s] =>
      destruct (phys_steps_on_frame_ok s Hfps) as (s' & Hs' & Hc & Hr & Hk)
  end.
  ok_step Hs'. eexists. split; [reflexivity|].
  cbn in Hc, Hr, Hk |- *. repeat split; try assumption.
  rewrite Hk. reflexivity.
Qed.

(** A step that does not reach the episode length. *)
Lemma step_before_the_end (self : base_env.BaseEnv E) (action N : Z) :
  base_env.max_episode_steps (base_env.config self) = Some N ->
  base_env._episode_steps self + 1 < N ->
  base_env.valid_action action ->
  is_Some (base_env._robot self) ->
  ~ (base_env.fps (base_env.config self) == 0)%Q ->
  exists obs self',
    base_env.step self action
    = Ok ((obs, 0%Q, false, {[ "eval_score" := 0%Q ]}), self') /\
    base_env.carries self self' (base_env._episode_steps self + 1).
Proof.
  intros HN Hlt Ha Hrobot Hfps. unfold base_env.step.
  destruct (step_forward_ok self action Ha Hrobot Hfps)
    as (self1 & Hf & Hc1 & Hr1 & Hk1).
  ok_step Hf. rewrite Hc1, HN, Hk1.
  replace (N <=? base_env._episode_steps self + 1) with false
    by (symmetry; apply Z.leb_gt; exact Hlt).
  cbn [orb mbind Result_bind].
  destruct (render_rgb_array_ok self1) as (obs & self2 & Hrender & Hc2 & Hr2 & Hk2).
  ok_step Hrender. exists obs, self2. rewrite insert_empty.
  split; [reflexivity|]. repeat split; congruence.
Qed.

(** The step that reaches it. *)
Lemma step_at_the_end (self : base_env.BaseEnv E) (action N : Z) :
  base_env.max_episode_steps (base_env.config self) = Some N ->
  N <= base_env._episode_steps self + 1 ->
  base_env.valid_action action ->
  is_Some (base_env._robot self) ->
  ~ (base_env.fps (base_env.config self) == 0)%Q ->
  exists self1,
    base_env.step_forward self action = Ok self1 /\
    let score := base_env.score_on_end_of_traj self1 in
    ((0 <= score <= 1)%Q ->
     exists obs self',
       base_env.step self action
       = Ok ((obs, 0%Q, true, {[ "eval_score" := score ]}), self')) /\
    (~ (0 <= score <= 1)%Q ->
     base_env.step self action = Raise AssertionError).
Proof.
  intros HN Hle Ha Hrobot Hfps.
  destruct (step_forward_ok self action Ha Hrobot Hfps)
    as (self1 & Hf & Hc1 & Hr1 & Hk1).
  exists self1. split; [exact Hf|]. intros score. unfold base_env.step.
  ok_step Hf. rewrite Hc1, HN, Hk1.
  replace (N <=? base_env._episode_steps self + 1) with true
    by (symmetry; apply Z.leb_le; exact Hle).
  cbn [orb]. fold score. split.
  - intros [H0 H1]. apply Qle_bool_iff in H0, H1. rewrite H0, H1.
    cbn [andb py_assert mbind Result_bind].
    destruct (render_rgb_array_ok self1) as (obs & self2 & Hrender & _).
    ok_step Hrender. exists obs, self2. rewrite insert_empty. reflexivity.
  - intros Hout.
    destruct (Qle_bool 0 score && Qle_bool score 1) eqn:Eb; [|reflexivity].
    apply andb_true_iff in Eb. destruct Eb as [H0 H1].
    apply Qle_bool_iff in H0, H1. exfalso. apply Hout. split; assumption.
Qed.

(** The steps before the last, from any count [k] of steps taken. *)
Lemma rollout_before_the_end (N : Z) (actions : list Z) :
  forall self : base_env.BaseEnv E,
    base_env.max_episode_steps (base_env.config self) = Some N ->
    base_env._episode_steps self + Z.of_nat (length actions) < N ->
    Forall base_env.valid_action actions ->
    is_Some (base_env._robot self) ->
    ~ (base_env.fps (base_env.config self) == 0)%Q ->
    exists rets self',
      base_env.rollout self actions = Ok (rets, self') /\
      length rets = length actions /\
      Forall (fun ret : base_env.StepReturn =>
                exists obs, ret = (obs, 0%Q, false, {[ "eval_score" := 0%Q ]}))
             rets /\
      base_env.carries self self'
              (base_env._episode_steps self + Z.of_nat (length actions)).
Proof.
  induction actions as [|action actions IH]; intros self HN Hlt Hvalid Hrobot Hfps.
  - exists [], self. cbn. repeat split; [constructor | lia].
  - inversion Hvalid as [|? ? Ha Hrest]; subst.
    cbn [length] in Hlt. cbn [base_env.rollout].
    destruct (step_before_the_end self action N HN ltac:(lia) Ha Hrobot Hfps)
      as (obs & self1 & Hstep & Hc1 & Hr1 & Hk1).
    ok_step Hstep.
    destruct (IH self1) as (rets & self2 & Hroll & Hlen & Hall & Hc2 & Hr2 & Hk2).
    + rewrite Hc1. exact HN.
    + rewrite Hk1. lia.
    + exact Hrest.
    + rewrite Hr1. exact Hrobot.
    + rewrite Hc1. exact Hfps.
    + ok_step Hroll. exists ((obs, 0%Q, false, {[ "eval_score" := 0%Q ]}) :: rets), self2.
      split; [reflexivity|]. split; [cbn; lia|]. split.
      * constructor; [eauto | exact Hall].
      * repeat split; try congruence. rewrite Hk2, Hk1. cbn [length]. lia.
Qed.

(** C1. An environment configured with [max_episode_steps = N], in the
    state a reset leaves (step counter 0, robot present), with a frame
    rate other than zero, stepped through [N] valid actions.  Each of the
    first N-1 calls of [step] returns reward 0, done = False and an info
    dict whose [eval_score] is 0.  The N-th call returns reward 0, done =
    True and the scenario score as [eval_score] when that score lies in
    [0, 1]; when it does not, the call raises [AssertionError] instead
    of returning. *)
Theorem step_episode_contract (self : base_env.BaseEnv E) (N : Z)
    (actions : list Z) (last_action : Z) :
  base_env.max_episode_steps (base_env.config self) = Some N ->
  Z.of_nat (length actions) = N - 1 ->
  base_env._episode_steps self = 0 ->
  is_Some (base_env._robot self) ->
  ~ (base_env.fps (base_env.config self) == 0)%Q ->
  Forall base_env.valid_action (actions ++ [last_action]) ->
  exists (rets : list base_env.StepReturn) (self1 self2 : base_env.BaseEnv E),
    base_env.rollout self actions = Ok (rets, self1) /\
    length rets = length actions /\
    Forall (fun ret : base_env.StepReturn =>
              exists obs,
                ret = (obs, 0%Q, false, {[ "eval_score" := 0%Q ]}) /\
                ret.2 !! "eval_score" = Some 0%Q)
           rets /\
    base_env.step_forward self1 last_action = Ok self2 /\
    let score := base_env.score_on_end_of_traj self2 in
    ((0 <= score <= 1)%Q ->
     exists obs self3,
       base_env.step self1 last_action
       = Ok ((obs, 0%Q, true, {[ "eval_score" := score ]}), self3)) /\
    (~ (0 <= score <= 1)%Q ->
     base_env.step self1 last_action = Raise AssertionError).
Proof.
  intros HN Hlen Hk Hrobot Hfps Hvalid.
  apply Forall_app in Hvalid. destruct Hvalid as [Hvalid Hlast].
  inversion Hlast as [|? ? Hla _]; subst.
  destruct (rollout_before_the_end N actions self HN ltac:(lia) Hvalid
              Hrobot Hfps)
    as (rets & self1 & Hroll & Hrl & Hall & Hc1 & Hr1 & Hk1).
  destruct (step_at_the_end self1 last_action N) as (self2 & Hf & Hend).
  - rewrite Hc1. exact HN.
  - rewrite Hk1. lia.
  - exact Hla.
  - rewrite Hr1. exact Hrobot.
  - rewrite Hc1. exact Hfps.
  - exists rets, self1, self2. split; [exact Hroll|]. split; [exact Hrl|].
    split; [|split; [exact Hf | exact Hend]].
    eapply Forall_impl; [exact Hall|]. intros ret [obs ->].
    exists obs. split; [reflexivity|]. cbn. apply lookup_singleton_eq.
Qed.

End Stepping.

(** The two-step episode of the example environment, score 0.5: the first
    step is not done, the second is and reports the score. *)
Lemma step_episode_contract_witness :
  let EM := en_module Fixtures.colours Fixtures.upright in
  let BE := Fixtures.still en.Entity in
  let SC := Fixtures.scenario (E0 := en.EntityNew) (E := en.Entity) [] (1 # 2) in
  exists rets self1,
    base_env.rollout Fixtures.env [1] = Ok (rets, self1) /\
    length rets = 1%nat /\
    exists obs self3,
      base_env.step self1 0
      = Ok ((obs, 0%Q, true, {[ "eval_score" := (1 # 2)%Q ]}), self3).
Proof.
  intros EM BE SC.
  assert (Hvalid : Forall base_env.valid_action [1; 0]).
  { repeat constructor; unfold base_env.valid_action; cbn; lia. }
  destruct (step_episode_contract (EM := EM) (BE := BE) (SC := SC)
              Fixtures.env 2 [1] 0 eq_refl eq_refl eq_refl
              (ex_intro _ 1%nat eq_refl) ltac:(discriminate) Hvalid)
    as (rets & self1 & self2 & Hroll & Hlen & _ & _ & Hin & _).
  exists rets, self1. split; [exact Hroll|]. split; [exact Hlen|].
  apply Hin. split; discriminate.
Defined.

(** ** Reset *)

Section Reset.

Variable COLOURS_RGB : gmap string (Q * Q * Q).
Variable rotation_vector : Q -> Vec2d.

Let entities_py := en_module COLOURS_RGB rotation_vector.

(** C5, as the code runs.  In an environment made of the classes of
    entities.py, [reset] never gets to its checks on the robot and on the
    entity list.  It adds the arena first; the [setup] of the arena is
    called with three arguments and raises [TypeError]; so [reset] raises
    [TypeError] before the scenario hook runs.  Hence, whatever the hook
    would add (no robot, one, several) and whatever it would return:
    [reset] does not fail with an [AssertionError]; it returns no
    observation, the case of a hook that creates exactly one robot
    included; and any two scenarios give the same result. *)
Theorem reset_raises_before_the_robot_check
    (BE : base_env.Backend en.Entity)
    (SC : base_env.Scenario en.EntityNew en.Entity)
    (self : base_env.BaseEnv en.Entity) :
  base_env.reset (EM := entities_py) self = Raise TypeError /\
  base_env.reset (EM := entities_py) self <> Raise AssertionError /\
  (forall obs self',
     base_env.reset (EM := entities_py) self <> Ok (obs, self')) /\
  (forall SC' : base_env.Scenario en.EntityNew en.Entity,
     base_env.reset (EM := entities_py) (SC := SC') self
     = base_env.reset (EM := entities_py) (SC := SC) self).
Proof.
  assert (Hreset : forall S : base_env.Scenario en.EntityNew en.Entity,
            base_env.reset (EM := entities_py) (SC := S) self
            = Raise TypeError).
  { intros S. unfold base_env.reset, entities_py.
    cbn [base_env.ARENA_BOUNDS_LRBT].
    rewrite add_entities_TypeError. reflexivity. }
  split; [apply Hreset|]. split; [|split].
  - rewrite Hreset. discriminate.
  - intros obs self'. rewrite Hreset. discriminate.
  - intros SC'. rewrite !Hreset. reflexivity.
Qed.

End Reset.

(** A hook that adds a square and exactly one robot and returns [None],
    and a hook that adds the square only: [reset] raises [TypeError] in
    both environments. *)
Lemma reset_raises_before_the_robot_check_witness :
  let EM := en_module Fixtures.colours Fixtures.upright in
  let BE := Fixtures.still en.Entity in
  let env := base_env.__init__ (E := en.Entity) (Fixtures.config 10 (Some 2)) 0 in
  let with_robot :=
    [[en.NewShape Fixtures.square]; [en.NewRobot Fixtures.robot_left]] in
  let without_robot := [[en.NewShape Fixtures.square]] in
  base_env.reset (SC := Fixtures.scenario with_robot (1 # 2)) env
  = Raise TypeError /\
  base_env.reset (SC := Fixtures.scenario without_robot (1 # 2)) env
  = Raise TypeError.
Proof.
  intros EM BE env with_robot without_robot. split.
  - apply (reset_raises_before_the_robot_check Fixtures.colours
             Fixtures.upright BE (Fixtures.scenario with_robot (1 # 2)) env).
  - apply (reset_raises_before_the_robot_check Fixtures.colours
             Fixtures.upright BE (Fixtures.scenario without_robot (1 # 2)) env).
Defined.

(** * Further properties *)

(** ** Robot: successive actions *)

(** X1.  [Robot.set_action] keeps no memory of the movement commanded
    before: after two calls the target speed and the relative turn rate
    (all the attributes of [__init__]) are those the second flags alone
    give.  The gripper latches: when the second flags have neither OPEN
    nor CLOSE, the target finger angle is the one the first call left;
    when they have one of them, it is the one the second flags alone
    give. *)
Theorem set_action_overrides_movement_latches_gripper
    (self : en.Robot.t) (first second : Z) :
  let twice := en.Robot.set_action (en.Robot.set_action self first) second in
  en.Robot.attrs twice = en.Robot.attrs (en.Robot.set_action self second) /\
  (en.flag_set second en.RobotAction.OPEN = false ->
   en.flag_set second en.RobotAction.CLOSE = false ->
   en.Robot.target_finger_angle (en.Robot.rig twice)
   = en.Robot.target_finger_angle
       (en.Robot.rig (en.Robot.set_action self first))) /\
  (en.flag_set second en.RobotAction.OPEN
   || en.flag_set second en.RobotAction.CLOSE = true ->
   en.Robot.target_finger_angle (en.Robot.rig twice)
   = en.Robot.target_finger_angle
       (en.Robot.rig (en.Robot.set_action self second))).
Proof.
  intros twice. subst twice. split; [reflexivity|]. split.
  - intros Hopen Hclose. unfold en.Robot.set_action at 1.
    cbn [en.Robot.rig en.Robot.set_target_finger_angle
         en.Robot.target_finger_angle].
    rewrite Hopen, Hclose. reflexivity.
  - intros Hany. unfold en.Robot.set_action at 1 3.
    cbn [en.Robot.rig en.Robot.set_target_finger_angle
         en.Robot.target_finger_angle].
    destruct (en.flag_set second en.RobotAction.OPEN); [reflexivity|].
    destruct (en.flag_set second en.RobotAction.CLOSE);
      [reflexivity | discriminate].
Qed.

(** ** Robot: what [update] writes *)

Lemma update_finger_motors_length (self : en.Robot.t) :
  forall (bodies : list pm.Body) (motors : list pm.SimpleMotor) (sides : list Q),
    length (en.Robot.update_finger_motors self bodies motors sides)
    = length motors.
Proof.
  induction bodies as [|b bodies IH]; intros [|m motors] [|sd sides]; cbn;
    try reflexivity.
  rewrite IH. reflexivity.
Qed.

Lemma update_finger_motors_limits (self : en.Robot.t) :
  forall (bodies : list pm.Body) (motors : list pm.SimpleMotor) (sides : list Q),
    (fun m => (pm.motor_max_bias m, pm.motor_max_force m))
      <$> en.Robot.update_finger_motors self bodies motors sides
    = (fun m => (pm.motor_max_bias m, pm.motor_max_force m)) <$> motors.
Proof.
  induction bodies as [|b bodies IH]; intros [|m motors] [|sd sides]; cbn;
    try reflexivity.
  rewrite IH. reflexivity.
Qed.

(** X2.  [Robot.update] writes the control body and the motor rates and
    nothing else: the attributes of [__init__], the robot's dynamic body,
    the finger bodies, the target finger angle, the transforms, the
    position of the control body, and the number and force limits of the
    motors stay as they were.  The control body is turned to the body's
    angle plus the relative turn rate, and its velocity is the vector
    (0, target_speed) rotated by the body's rotation vector; with a
    rotation vector of length 1 the commanded speed is |target_speed|
    whatever the heading. *)
Theorem update_writes_controls_only
    (rotation_vector : Q -> Vec2d) (self : en.Robot.t) (dt : Q) :
  let after := en.Robot.update rotation_vector self dt in
  let body := en.Robot.robot_body (en.Robot.rig self) in
  let heading := rotation_vector (pm.angle body) in
  let speed := en.Robot.target_speed (en.Robot.attrs self) in
  let velocity := pm.velocity (en.Robot.control_body (en.Robot.rig after)) in
  (en.Robot.attrs after = en.Robot.attrs self /\
   en.Robot.robot_body (en.Robot.rig after) = body /\
   en.Robot.finger_bodies (en.Robot.rig after)
   = en.Robot.finger_bodies (en.Robot.rig self) /\
   en.Robot.target_finger_angle (en.Robot.rig after)
   = en.Robot.target_finger_angle (en.Robot.rig self) /\
   en.Robot.finger_xforms (en.Robot.rig after)
   = en.Robot.finger_xforms (en.Robot.rig self) /\
   en.Robot.robot_xform (en.Robot.rig after)
   = en.Robot.robot_xform (en.Robot.rig self) /\
   pm.position (en.Robot.control_body (en.Robot.rig after))
   = pm.position (en.Robot.control_body (en.Robot.rig self)) /\
   length (en.Robot.finger_motors (en.Robot.rig after))
   = length (en.Robot.finger_motors (en.Robot.rig self)) /\
   (fun m => (pm.motor_max_bias m, pm.motor_max_force m))
     <$> en.Robot.finger_motors (en.Robot.rig after)
   = (fun m => (pm.motor_max_bias m, pm.motor_max_force m))
       <$> en.Robot.finger_motors (en.Robot.rig self)) /\
  (pm.angle (en.Robot.control_body (en.Robot.rig after))
   = pm.angle body + en.Robot.rel_turn_angle (en.Robot.attrs self) /\
   fst velocity == - (snd heading * speed) /\
   snd velocity == fst heading * speed /\
   (fst heading * fst heading + snd heading * snd heading == 1 ->
    fst velocity * fst velocity + snd velocity * snd velocity
    == speed * speed))%Q.
Proof.
  intros after body heading speed velocity.
  subst after velocity. unfold en.Robot.update.
  cbn [en.Robot.attrs en.Robot.rig en.Robot.set_control en.Robot.robot_body
       en.Robot.control_body en.Robot.finger_bodies en.Robot.finger_motors
       en.Robot.target_finger_angle en.Robot.finger_xforms
       en.Robot.robot_xform pm.set_velocity pm.set_angle pm.position
       pm.angle pm.velocity].
  fold body. fold heading. fold speed.
  split.
  - repeat split.
    + apply update_finger_motors_length.
    + apply update_finger_motors_limits.
  - unfold cpvrotate. cbn [fst snd].
    split; [reflexivity|]. split; [ring|]. split; [ring|].
    intros Hunit.
    transitivity ((fst heading * fst heading + snd heading * snd heading)
                  * (speed * speed))%Q; [ring|].
    rewrite Hunit. ring.
Qed.

(** ** Robot: dead band and saturation of the finger motors *)

Lemma finger_target_rate_bands (self : en.Robot.t) (finger_body : pm.Body)
    (finger_side : Q) :
  let angle_error :=
    (pm.angle finger_body - pm.angle (en.Robot.robot_body (en.Robot.rig self))
     + finger_side * en.Robot.target_finger_angle (en.Robot.rig self))%Q in
  let rate := en.Robot.finger_target_rate self finger_body finger_side in
  ((Qabs angle_error < 1 # 100000 -> rate = 0) /\
   (1 # 10 <= angle_error -> rate == 1) /\
   (angle_error <= - (1 # 10) -> rate == - (1)) /\
   (1 # 100000 <= angle_error -> 0 < rate) /\
   (angle_error <= - (1 # 100000) -> rate < 0))%Q.
Proof.
  intros angle_error rate. subst rate.
  unfold en.Robot.finger_target_rate. fold angle_error.
  unfold py_max, py_min.
  destruct (Qlt_bool (angle_error * 10) 1) eqn:E1;
    [apply Qlt_bool_iff in E1 | apply Qlt_bool_false in E1].
  - destruct (Qlt_bool (- (1)) (angle_error * 10)) eqn:E2;
      [apply Qlt_bool_iff in E2 | apply Qlt_bool_false in E2].
    + destruct (Qlt_bool (Qabs (angle_error * 10)) (1 # 10000)) eqn:E3;
        [apply Qlt_bool_iff in E3; apply Qabs_Qlt_condition in E3
        | apply Qlt_bool_false in E3].
      * repeat split; intros H; try reflexivity; lra.
      * split.
        { intros H. apply Qabs_Qlt_condition in H.
          exfalso. apply (Qle_not_lt _ _ E3).
          apply Qabs_Qlt_condition. lra. }
        repeat split; intros H; lra.
    + change (Qlt_bool (Qabs (- (1))) (1 # 10000)) with false.
      split.
      { intros H. apply Qabs_Qlt_condition in H. lra. }
      repeat split; intros H; lra.
  - change (Qlt_bool (- (1)) 1) with true.
    change (Qlt_bool (Qabs 1) (1 # 10000)) with false.
    split.
    { intros H. apply Qabs_Qlt_condition in H. lra. }
    repeat split; intros H; lra.
Qed.

(** X3.  The finger motors of [Robot.update] have a dead band and
    saturate.  For each finger (body, motor and side at the same index),
    with the angle error of the source, i.e. the finger's angle relative
    to the body plus side times the target finger angle: an error of
    magnitude below 0.00001 rad stops the motor (rate exactly 0); an error
    of 0.1 rad or more runs it at rate 1, of -0.1 rad or less at rate -1;
    outside the dead band the rate has the sign of the error. *)
Theorem update_finger_dead_band_and_saturation
    (rotation_vector : Q -> Vec2d) (self : en.Robot.t) (dt : Q)
    (i : nat) (finger_body : pm.Body) (finger_motor : pm.SimpleMotor)
    (finger_side : Q) :
  en.Robot.finger_bodies (en.Robot.rig self) !! i = Some finger_body ->
  en.Robot.finger_motors (en.Robot.rig self) !! i = Some finger_motor ->
  [(- (1))%Q; 1%Q] !! i = Some finger_side ->
  let angle_error :=
    (pm.angle finger_body - pm.angle (en.Robot.robot_body (en.Robot.rig self))
     + finger_side * en.Robot.target_finger_angle (en.Robot.rig self))%Q in
  exists motor' : pm.SimpleMotor,
    en.Robot.finger_motors
      (en.Robot.rig (en.Robot.update rotation_vector self dt)) !! i
    = Some motor' /\
    ((Qabs angle_error < 1 # 100000 -> pm.rate motor' = 0) /\
     (1 # 10 <= angle_error -> pm.rate motor' == 1) /\
     (angle_error <= - (1 # 10) -> pm.rate motor' == - (1)) /\
     (1 # 100000 <= angle_error -> 0 < pm.rate motor') /\
     (angle_error <= - (1 # 100000) -> pm.rate motor' < 0))%Q.
Proof.
  intros Hb Hm Hs angle_error.
  exists (pm.set_rate finger_motor
            (en.Robot.finger_target_rate self finger_body finger_side)).
  split.
  - unfold en.Robot.update. cbn [en.Robot.rig en.Robot.set_control
      en.Robot.finger_motors].
    apply update_finger_motors_lookup; assumption.
  - cbn [pm.set_rate pm.rate]. apply finger_target_rate_bands.
Qed.

(** The right finger of the example robot is 0.000005 rad off: its motor
    is stopped. *)
Lemma update_finger_dead_band_and_saturation_witness :
  exists motor' : pm.SimpleMotor,
    en.Robot.finger_motors
      (en.Robot.rig (en.Robot.update Fixtures.upright Fixtures.robot (1 # 200)))
      !! 1%nat = Some motor' /\
    pm.rate motor' = 0%Q.
Proof.
  destruct (update_finger_dead_band_and_saturation Fixtures.upright
              Fixtures.robot (1 # 200) 1
              (Fixtures.finger (7 # 40) (1 # 200000)) Fixtures.motor 1%Q
              eq_refl eq_refl eq_refl)
    as (motor' & Hlook & Hrest & _).
  exists motor'. split; [exact Hlook|]. apply Hrest. reflexivity.
Defined.

(** ** What the entities register *)

Section Registration.

Variable COLOURS_RGB : gmap string (Q * Q * Q).
Variable viewer : gym_render.Viewer.
Variable space : pm.Space.

(** X4.  [Robot.setup], called with a viewer and a space, where the colour
    table has 'grey': it adds to the space, after what was there, the
    dynamic body, the kinematic control body, the pivot joint (force limit
    3) and the gear joint (1), then per finger a dynamic body, a pin joint,
    a rotary limit and a motor (2), then four collision shapes (friction
    0.5 for the body, 2 for the buffer and the fingers); and to the viewer
    three geoms.  The dynamic body starts at the origin with angle 0
    whatever [init_pos] and [init_angle] are; only the control body is
    placed there.  The robot has two finger bodies, two motors at rate 0
    and the target finger angle 0.  Without 'grey' in the colour table
    [setup] raises [KeyError]. *)
Theorem Robot_setup_registers (robot : en.Robot.Init) :
  (forall grey, COLOURS_RGB !! "grey" = Some grey ->
   exists live viewer' space',
     en.Robot.setup COLOURS_RGB robot [ObjViewer viewer; ObjSpace space]
     = Ok (live, viewer', space') /\
     pm.items space'
     = pm.items space
       ++ [pm.BodyItem pm.DYNAMIC; pm.BodyItem pm.KINEMATIC;
           pm.ConstraintItem pm.PivotJoint (Some 3%Q);
           pm.ConstraintItem pm.GearJoint (Some 1%Q);
           pm.BodyItem pm.DYNAMIC;
           pm.ConstraintItem pm.PinJoint None;
           pm.ConstraintItem pm.RotaryLimitJoint None;
           pm.ConstraintItem pm.SimpleMotorJoint (Some 2%Q);
           pm.BodyItem pm.DYNAMIC;
           pm.ConstraintItem pm.PinJoint None;
           pm.ConstraintItem pm.RotaryLimitJoint None;
           pm.ConstraintItem pm.SimpleMotorJoint (Some 2%Q);
           pm.ShapeItem "body_shape" (1 # 2)%Q;
           pm.ShapeItem "buffer_shape" 2%Q;
           pm.ShapeItem "finger_shape" 2%Q;
           pm.ShapeItem "finger_shape" 2%Q] /\
     pm.collision_slop space' = pm.collision_slop space /\
     pm.iterations space' = pm.iterations space /\
     length (gym_render.geoms viewer')
     = (length (gym_render.geoms viewer) + 3)%nat /\
     take (length (gym_render.geoms viewer)) (gym_render.geoms viewer')
     = gym_render.geoms viewer /\
     en.Robot.attrs live = robot /\
     en.Robot.robot_body (en.Robot.rig live) = pm.Body_init pm.DYNAMIC /\
     pm.position (en.Robot.control_body (en.Robot.rig live))
     = en.Robot.init_pos robot /\
     pm.angle (en.Robot.control_body (en.Robot.rig live))
     = en.Robot.init_angle robot /\
     length (en.Robot.finger_bodies (en.Robot.rig live)) = 2%nat /\
     pm.rate <$> en.Robot.finger_motors (en.Robot.rig live) = [0%Q; 0%Q] /\
     en.Robot.target_finger_angle (en.Robot.rig live) = 0%Q) /\
  (COLOURS_RGB !! "grey" = None ->
   en.Robot.setup COLOURS_RGB robot [ObjViewer viewer; ObjSpace space]
   = Raise KeyError).
Proof.
  split.
  - intros grey Hgrey. unfold en.Robot.setup, en.colour_lookup.
    rewrite Hgrey. cbn. eexists _, _, _. split; [reflexivity|].
    cbn. rewrite <- !app_assoc. cbn. repeat split.
    + rewrite !length_app. cbn. lia.
    + rewrite take_app_length. reflexivity.
  - intros Hnone. unfold en.Robot.setup, en.colour_lookup.
    rewrite Hnone. reflexivity.
Qed.

(** X5.  [Shape.setup], called with a viewer and a space, for each of the
    four shape types: it adds to the space one dynamic body, one collision
    shape of friction 0.5, a pivot joint of force limit 1.5 and a gear
    joint of force limit 0.1, in that order, and to the viewer one geom;
    the body is placed at [init_pos] with angle [init_angle], at rest. *)
Theorem Shape_setup_registers (shape : en.Shape.Init) (t : en.ShapeType) :
  en.Shape.shape_type shape = en.Member t ->
  exists live viewer' space' name,
    en.Shape.setup shape [ObjViewer viewer; ObjSpace space]
    = Ok (live, viewer', space') /\
    pm.items space'
    = pm.items space
      ++ [pm.BodyItem pm.DYNAMIC; pm.ShapeItem name (1 # 2)%Q;
          pm.ConstraintItem pm.PivotJoint (Some (3 # 2)%Q);
          pm.ConstraintItem pm.GearJoint (Some (1 # 10)%Q)] /\
    gym_render.geoms viewer'
    = gym_render.geoms viewer
      ++ [{| gym_render.geom_name := "shape_compound" |}] /\
    en.Shape.attrs live = shape /\
    en.Shape.shape_body live
    = {| pm.body_type := pm.DYNAMIC; pm.position := en.Shape.init_pos shape;
         pm.angle := en.Shape.init_angle shape; pm.velocity := (0, 0)%Q |}.
Proof.
  intros Ht. unfold en.Shape.setup, en.Shape.setup_body. rewrite Ht.
  destruct t; cbn; eexists _, _, _, _; (split; [reflexivity|]); cbn;
    rewrite <- !app_assoc; repeat split.
Qed.

(** X6.  [ArenaBoundaries.setup], called with a viewer and a space, adds
    four segments of friction 0.8 to the space and nothing else: no body,
    no joint, no geom; the arena object is unchanged.  Each segment starts
    where the one before ends and the last ends where the first starts;
    each is horizontal or vertical and runs [seg_rad] outside the arena
    (at y = top + rad or bottom - rad, or at x = left - rad or
    right + rad). *)
Theorem ArenaBoundaries_setup_registers (arena : en.ArenaBoundaries.t) :
  (en.ArenaBoundaries.setup arena [ObjViewer viewer; ObjSpace space]
   = Ok (arena, viewer,
         pm.add space (replicate 4 (pm.ShapeItem "segment" (4 # 5)%Q)))) /\
  length (en.ArenaBoundaries.segments arena) = 4%nat /\
  (forall i a b,
     en.ArenaBoundaries.segments arena !! i = Some (a, b) ->
     exists c,
       en.ArenaBoundaries.segments arena !! ((i + 1) mod 4)%nat = Some (b, c)) /\
  (forall i a b,
     en.ArenaBoundaries.segments arena !! i = Some (a, b) ->
     let rad := en.ArenaBoundaries.seg_rad arena in
     (snd a = snd b /\
      (snd a = (en.ArenaBoundaries.top arena + rad)%Q \/
       snd a = (en.ArenaBoundaries.bottom arena - rad)%Q)) \/
     (fst a = fst b /\
      (fst a = (en.ArenaBoundaries.left arena - rad)%Q \/
       fst a = (en.ArenaBoundaries.right arena + rad)%Q))).
Proof.
  split; [reflexivity|]. split; [reflexivity|]. split.
  - intros i a b Hi.
    destruct i as [|[|[|[|i]]]]; cbn in Hi; try discriminate;
      injection Hi as <- <-; eexists; reflexivity.
  - intros i a b Hi rad.
    destruct i as [|[|[|[|i]]]]; cbn in Hi; try discriminate;
      injection Hi as <- <-; cbn; auto.
Qed.

End Registration.

Lemma Shape_setup_registers_witness :
  exists live viewer' space',
    en.Shape.setup Fixtures.square
      [ObjViewer (gym_render.Viewer_init 2 2 false); ObjSpace pm.Space_init]
    = Ok (live, viewer', space') /\
    length (pm.items space') = 4%nat.
Proof.
  destruct (Shape_setup_registers (gym_render.Viewer_init 2 2 false)
              pm.Space_init Fixtures.square en.SQUARE eq_refl)
    as (live & viewer' & space' & name & Hsetup & Hitems & _).
  exists live, viewer', space'. split; [exact Hsetup|].
  rewrite Hitems. reflexivity.
Defined.

(** ** Drawing: [pre_draw] *)

Lemma draw_fingers_lookup :
  forall (xforms : list gym_render.Transform) (bodies : list pm.Body)
         (i : nat) xform body,
    xforms !! i = Some xform ->
    bodies !! i = Some body ->
    en.Robot.draw_fingers xforms bodies !! i
    = Some {| gym_render.translation := pm.position body;
              gym_render.rotation := pm.angle body;
              gym_render.scale := gym_render.scale xform |}.
Proof.
  induction xforms as [|x xforms IH]; intros [|b bodies] i xform body Hx Hb;
    try (destruct i; discriminate).
  destruct i as [|i]; cbn in *.
  - injection Hx as <-. injection Hb as <-.
    destruct (pm.position b). reflexivity.
  - destruct (pm.position b). cbn. eapply IH; eassumption.
Qed.

Lemma draw_fingers_twice :
  forall (xforms : list gym_render.Transform) (bodies : list pm.Body),
    en.Robot.draw_fingers (en.Robot.draw_fingers xforms bodies) bodies
    = en.Robot.draw_fingers xforms bodies.
Proof.
  induction xforms as [|x xforms IH]; intros [|b bodies]; cbn;
    try reflexivity.
  destruct (pm.position b) as [px py] eqn:Hpos. cbn. rewrite Hpos, IH.
  reflexivity.
Qed.

(** X7.  [pre_draw] copies poses from the physics to the drawables and
    touches nothing else.  For a robot: the body's position and angle go
    to the robot's transform, each finger body's to the transform of that
    finger; attributes, bodies, motors and target finger angle stay.  For
    a shape: the body's position and angle go to its transform; its
    attributes and body stay.  The scale of a transform is kept.  Calling
    [pre_draw] twice in a row gives what one call gives. *)
Theorem pre_draw_copies_poses :
  (forall e : en.Entity, en.pre_draw (en.pre_draw e) = en.pre_draw e) /\
  (forall r : en.Robot.t,
     let body := en.Robot.robot_body (en.Robot.rig r) in
     let after := en.Robot.pre_draw r in
     en.Robot.robot_xform (en.Robot.rig after)
     = {| gym_render.translation := pm.position body;
          gym_render.rotation := pm.angle body;
          gym_render.scale :=
            gym_render.scale (en.Robot.robot_xform (en.Robot.rig r)) |} /\
     (forall i xform finger_body,
        en.Robot.finger_xforms (en.Robot.rig r) !! i = Some xform ->
        en.Robot.finger_bodies (en.Robot.rig r) !! i = Some finger_body ->
        en.Robot.finger_xforms (en.Robot.rig after) !! i
        = Some {| gym_render.translation := pm.position finger_body;
                  gym_render.rotation := pm.angle finger_body;
                  gym_render.scale := gym_render.scale xform |}) /\
     en.Robot.attrs after = en.Robot.attrs r /\
     en.Robot.robot_body (en.Robot.rig after) = body /\
     en.Robot.control_body (en.Robot.rig after)
     = en.Robot.control_body (en.Robot.rig r) /\
     en.Robot.finger_bodies (en.Robot.rig after)
     = en.Robot.finger_bodies (en.Robot.rig r) /\
     en.Robot.finger_motors (en.Robot.rig after)
     = en.Robot.finger_motors (en.Robot.rig r) /\
     en.Robot.target_finger_angle (en.Robot.rig after)
     = en.Robot.target_finger_angle (en.Robot.rig r)) /\
  (forall s : en.Shape.t,
     let after := en.Shape.pre_draw s in
     en.Shape.shape_xform after
     = {| gym_render.translation := pm.position (en.Shape.shape_body s);
          gym_render.rotation := pm.angle (en.Shape.shape_body s);
          gym_render.scale := gym_render.scale (en.Shape.shape_xform s) |} /\
     en.Shape.attrs after = en.Shape.attrs s /\
     en.Shape.shape_body after = en.Shape.shape_body s).
Proof.
  split; [|split].
  - intros [r|a|s]; cbn [en.pre_draw]; [|reflexivity|].
    + f_equal. unfold en.Robot.pre_draw.
      destruct (pm.position (en.Robot.robot_body (en.Robot.rig r)))
        as [x y] eqn:Hpos.
      cbn. rewrite Hpos. cbn. rewrite draw_fingers_twice. reflexivity.
    + f_equal. unfold en.Shape.pre_draw.
      destruct (pm.position (en.Shape.shape_body s)) as [x y] eqn:Hpos.
      cbn. rewrite Hpos. reflexivity.
  - intros r body after. subst after body. unfold en.Robot.pre_draw.
    destruct (pm.position (en.Robot.robot_body (en.Robot.rig r)))
      as [x y] eqn:Hpos.
    cbn. split; [reflexivity|]. split; [|repeat split].
    intros i xform fb Hx Hb. apply draw_fingers_lookup; assumption.
  - intros s after. subst after. unfold en.Shape.pre_draw.
    destruct (pm.position (en.Shape.shape_body s)) as [x y] eqn:Hpos.
    cbn. repeat split.
Qed.

(** ** The viewer: bounds and one-time geoms *)

(** X8.  [set_bounds] with left < right and bottom < top installs a
    transform without rotation under which a point (x, y) of the scene
    lands at ((x - left) / (right - left) * width,
    (y - bottom) / (top - bottom) * height): the corner (left, bottom) at
    the origin of the window and the corner (right, top) at (width,
    height).  Size, visibility and geoms of the viewer are kept. *)
Theorem set_bounds_maps_bounds_to_window (self : gym_render.Viewer)
    (left right bottom top : Q) :
  (left < right)%Q -> (bottom < top)%Q ->
  exists self' : gym_render.Viewer,
    gym_render.set_bounds self left right bottom top = Ok self' /\
    gym_render.rotation (gym_render.transform self') = 0%Q /\
    (forall x y : Q,
       let p := gym_render.transform_point (gym_render.transform self') (x, y) in
       (fst p == (x - left) / (right - left)
                 * inject_Z (gym_render.width self))%Q /\
       (snd p == (y - bottom) / (top - bottom)
                 * inject_Z (gym_render.height self))%Q) /\
    (let p := gym_render.transform_point (gym_render.transform self')
                (left, bottom) in
     (fst p == 0)%Q /\ (snd p == 0)%Q) /\
    (let p := gym_render.transform_point (gym_render.transform self')
                (right, top) in
     (fst p == inject_Z (gym_render.width self))%Q /\
     (snd p == inject_Z (gym_render.height self))%Q) /\
    gym_render.width self' = gym_render.width self /\
    gym_render.height self' = gym_render.height self /\
    gym_render.window_visible self' = gym_render.window_visible self /\
    gym_render.geoms self' = gym_render.geoms self /\
    gym_render.onetime_geoms self' = gym_render.onetime_geoms self.
Proof.
  intros Hlr Hbt. unfold gym_render.set_bounds.
  rewrite (proj2 (Qlt_bool_iff left right) Hlr).
  rewrite (proj2 (Qlt_bool_iff bottom top) Hbt).
  cbn [andb py_assert mbind Result_bind]. eexists. split; [reflexivity|].
  cbn. split; [reflexivity|].
  assert (Hx : ~ (right - left == 0)%Q) by lra.
  assert (Hy : ~ (top - bottom == 0)%Q) by lra.
  split; [|split; [|split]].
  - intros x y. split; field; assumption.
  - split; field; assumption.
  - split; field; assumption.
  - repeat split.
Qed.

(** The 2 x 2 viewer with the bounds of the arena, [-1, 1] both ways: the
    centre of the arena lands at the centre of the window. *)
Lemma set_bounds_maps_bounds_to_window_witness :
  exists self' : gym_render.Viewer,
    gym_render.set_bounds (gym_render.Viewer_init 2 2 false)
                          (- (1)) 1 (- (1)) 1 = Ok self' /\
    (fst (gym_render.transform_point (gym_render.transform self') (0, 0)%Q)
     == 1)%Q.
Proof.
  destruct (set_bounds_maps_bounds_to_window
              (gym_render.Viewer_init 2 2 false) (- (1)) 1 (- (1)) 1
              ltac:(reflexivity) ltac:(reflexivity))
    as (self' & Hset & _ & Hpoint & _).
  exists self'. split; [exact Hset|].
  destruct (Hpoint 0%Q 0%Q) as [Hfst _]. cbv zeta in Hfst.
  rewrite Hfst. reflexivity.
Defined.

(** X9.  [set_bounds] with right <= left or top <= bottom raises
    [AssertionError]; the division by the width or height of the bounds
    is not reached, so no [ZeroDivisionError] comes of empty bounds. *)
Theorem set_bounds_rejects_empty_bounds (self : gym_render.Viewer)
    (left right bottom top : Q) :
  (right <= left)%Q \/ (top <= bottom)%Q ->
  gym_render.set_bounds self left right bottom top = Raise AssertionError.
Proof.
  intros Hempty. unfold gym_render.set_bounds.
  destruct (Qlt_bool left right && Qlt_bool bottom top) eqn:Eb;
    [|reflexivity].
  apply andb_true_iff in Eb. destruct Eb as [Hlr Hbt].
  apply Qlt_bool_iff in Hlr, Hbt. exfalso. destruct Hempty; lra.
Qed.

Lemma set_bounds_rejects_empty_bounds_witness :
  gym_render.set_bounds (gym_render.Viewer_init 2 2 false) 1 1 (- (1)) 1
  = Raise AssertionError.
Proof.
  apply set_bounds_rejects_empty_bounds. left. apply Qle_refl.
Defined.

(** X10.  A geom added with [add_onetime] is drawn by the next [render],
    after the persistent geoms, and by no later one: [render] empties the
    one-time list and keeps the persistent geoms, the transform and the
    size of the viewer.  With [return_rgb_array] false [render] returns
    [isopen]. *)
Theorem onetime_geoms_are_drawn_once (self : gym_render.Viewer)
    (geom : gym_render.Geom) (buffer : gym_render.ColorBuffer)
    (return_rgb_array : bool) :
  (return_rgb_array = true ->
   length (gym_render.buf_data buffer)
   = (gym_render.buf_height buffer * gym_render.buf_width buffer * 4)%nat) ->
  gym_render.drawn_geoms (gym_render.add_onetime self geom)
  = gym_render.drawn_geoms self ++ [geom] /\
  exists (ret : gym_render.RenderReturn) (self' : gym_render.Viewer),
    gym_render.render (gym_render.add_onetime self geom) buffer
                      return_rgb_array = Ok (ret, self') /\
    (return_rgb_array = false ->
     ret = gym_render.RIsOpen (gym_render.isopen self)) /\
    gym_render.drawn_geoms self' = gym_render.geoms self /\
    gym_render.onetime_geoms self' = [] /\
    gym_render.geoms self' = gym_render.geoms self /\
    gym_render.transform self' = gym_render.transform self /\
    gym_render.width self' = gym_render.width self /\
    gym_render.height self' = gym_render.height self.
Proof.
  intros Hbuf. split.
  - unfold gym_render.drawn_geoms, gym_render.add_onetime. cbn.
    apply app_assoc.
  - unfold gym_render.render. destruct return_rgb_array.
    + unfold gym_render.reshape_hw4.
      rewrite (Hbuf eq_refl), Nat.eqb_refl. cbn.
      eexists _, _. split; [reflexivity|].
      split; [discriminate|]. unfold gym_render.drawn_geoms. cbn.
      rewrite app_nil_r. repeat split.
    + cbn. eexists _, _. split; [reflexivity|].
      split; [reflexivity|]. unfold gym_render.drawn_geoms. cbn.
      rewrite app_nil_r. repeat split.
Qed.

Lemma onetime_geoms_are_drawn_once_witness :
  exists (ret : gym_render.RenderReturn) (self' : gym_render.Viewer),
    gym_render.render
      (gym_render.add_onetime (gym_render.Viewer_init 2 2 false)
                              {| gym_render.geom_name := "line" |})
      Fixtures.one_pixel_buffer true = Ok (ret, self') /\
    gym_render.drawn_geoms self' = [].
Proof.
  destruct (onetime_geoms_are_drawn_once
              (gym_render.Viewer_init 2 2 false)
              {| gym_render.geom_name := "line" |}
              Fixtures.one_pixel_buffer true (fun _ => eq_refl))
    as (_ & ret & self' & Hr & _ & Hd & _).
  exists ret, self'. split; assumption.
Defined.

(** ** The environment: render and close *)

Section RenderAndClose.

Context {E0 E : Type}.
Context {EM : base_env.EntityModule E0 E} {BE : base_env.Backend E}
        {SC : base_env.Scenario E0 E}.

(** What a render in mode "rgb_array" returns and leaves. *)
Lemma render_rgb_array_keeps (self : base_env.BaseEnv E) :
  exists obs self',
    base_env.render self "rgb_array" = Ok (obs, self') /\
    base_env.carries self self' (base_env._episode_steps self) /\
    (obs = None <-> base_env.viewer self = None) /\
    (base_env.viewer self' = None <-> base_env.viewer self = None) /\
    length (base_env._entities self') = length (base_env._entities self) /\
    base_env.calls self' = base_env.calls self.
Proof.
  unfold base_env.render. destruct (base_env.viewer self) as [v|] eqn:Hv.
  - cbn [String.eqb Ascii.eqb Bool.eqb py_assert mbind Result_bind].
    destruct (viewer_render_ok v
                (base_env._entities
                   (base_env.set_entities self
                      (map base_env.pre_draw (base_env._entities self)))))
      as (arr & v' & Hr).
    ok_step Hr. eexists _, _. split; [reflexivity|]. cbn.
    rewrite length_map. repeat split; discriminate.
  - eexists _, _. split; [reflexivity|]. rewrite Hv. repeat split.
Qed.

(** X11.  [render(mode)] of the environment.  Without a viewer it returns
    [None] and changes nothing, whatever the mode, a mode it does not know
    included.  With a viewer: mode "rgb_array" returns a pixel array and
    leaves the visibility of the window as it was; mode "human" returns a
    pixel array as well and makes the window visible; any other mode
    raises [AssertionError].  A render that returns has called [pre_draw]
    on every entity, and it leaves no one-time geom behind. *)
Theorem render_modes (self : base_env.BaseEnv E) :
  (base_env.viewer self = None ->
   forall mode, base_env.render self mode = Ok (None, self)) /\
  (forall v, base_env.viewer self = Some v ->
     (forall mode, mode <> "human"%string -> mode <> "rgb_array"%string ->
        base_env.render self mode = Raise AssertionError) /\
     (forall mode, mode = "human"%string \/ mode = "rgb_array"%string ->
        exists arr self' v',
          base_env.render self mode
          = Ok (Some (gym_render.RArray arr), self') /\
          base_env.viewer self' = Some v' /\
          gym_render.window_visible v'
          = (if String.eqb mode "human" then true
             else gym_render.window_visible v) /\
          gym_render.onetime_geoms v' = [] /\
          gym_render.geoms v' = gym_render.geoms v /\
          base_env._entities self'
          = map base_env.pre_draw (base_env._entities self) /\
          base_env.carries self self' (base_env._episode_steps self))).
Proof.
  split.
  - intros Hv mode. unfold base_env.render. rewrite Hv. reflexivity.
  - intros v Hv. split.
    + intros mode Hh Hr. unfold base_env.render. rewrite Hv.
      apply String.eqb_neq in Hh, Hr. rewrite Hh, Hr. reflexivity.
    + intros mode Hmode. unfold base_env.render. rewrite Hv.
      destruct Hmode as [-> | ->];
        cbn [String.eqb Ascii.eqb Bool.eqb py_assert mbind Result_bind];
        match goal with
        | |- context [gym_render.render ?w (base_env.color_buffer ?w ?ents) true] =>
            pose proof (base_env.color_buffer_rgba w ents) as Hbuf
        end;
        unfold gym_render.render, gym_render.reshape_hw4;
        rewrite Hbuf, Nat.eqb_refl; cbn;
        eexists _, _, _; (split; [reflexivity|]); cbn; repeat split.
Qed.

(** X12.  [close] forgets the viewer and nothing else, and closing twice
    is closing once.  A closed environment renders [None] in every
    mode. *)
Theorem close_forgets_the_viewer (self : base_env.BaseEnv E) :
  base_env.viewer (base_env.close self) = None /\
  base_env.close (base_env.close self) = base_env.close self /\
  (forall mode,
     base_env.render (base_env.close self) mode
     = Ok (None, base_env.close self)) /\
  base_env.config (base_env.close self) = base_env.config self /\
  base_env._entities (base_env.close self) = base_env._entities self /\
  base_env._space (base_env.close self) = base_env._space self /\
  base_env._robot (base_env.close self) = base_env._robot self /\
  base_env._episode_steps (base_env.close self)
  = base_env._episode_steps self /\
  base_env.calls (base_env.close self) = base_env.calls self.
Proof.
  unfold base_env.close, base_env.render.
  destruct (base_env.viewer self) as [v|] eqn:Hv; cbn; rewrite ?Hv;
    repeat split.
Qed.

End RenderAndClose.

(** ** Stepping: failures, the call trace and the end of an episode *)

Lemma action_to_flags_invalid (action : Z) :
  ~ base_env.valid_action action ->
  base_env.action_to_flags action = Raise KeyError.
Proof.
  intros Hn. unfold base_env.action_to_flags, en.ACTION_ID_TO_FLAGS.
  destruct (en.id_to_flags en.ACTION_NUMS_FLAGS_NAMES !! action)
    as [t|] eqn:Ht; [|reflexivity].
  apply id_to_flags_lookup in Ht. destruct Ht as [H0 Hl].
  apply lookup_lt_Some in Hl. exfalso. apply Hn.
  unfold base_env.valid_action. lia.
Qed.

Section SteppingFurther.

Context {E0 E : Type}.
Context {EM : base_env.EntityModule E0 E} {BE : base_env.Backend E}
        {SC : base_env.Scenario E0 E}.

(** X13.  The ways [step] fails before it has moved anything, in the
    order the code meets them: an action that is no index of the action
    table is a [KeyError]; a valid action in an environment without a
    robot, such as one that was never reset, is an [AttributeError]; a
    valid action with a robot and a frame rate of zero is a
    [ZeroDivisionError]. *)
Theorem step_fails_before_moving (self : base_env.BaseEnv E) (action : Z) :
  (~ base_env.valid_action action ->
   base_env.step self action = Raise KeyError) /\
  (base_env.valid_action action ->
   (base_env._robot self = None ->
    base_env.step self action = Raise AttributeError) /\
   (forall cfg seed,
      base_env.step (base_env.__init__ cfg seed) action
      = Raise AttributeError) /\
   (is_Some (base_env._robot self) ->
    (base_env.fps (base_env.config self) == 0)%Q ->
    base_env.step self action = Raise ZeroDivisionError)).
Proof.
  split.
  - intros Hn. unfold base_env.step, base_env.step_forward.
    rewrite (action_to_flags_invalid action Hn). reflexivity.
  - intros Ha.
    destruct (action_to_flags_valid action Ha) as [[[ud lr] grip] Hflags].
    split; [|split].
    + intros Hr. unfold base_env.step, base_env.step_forward.
      ok_step Hflags. unfold base_env.robot_set_action. rewrite Hr.
      reflexivity.
    + intros cfg seed. unfold base_env.step, base_env.step_forward.
      ok_step Hflags. reflexivity.
    + intros [i Hi] Hfps. unfold base_env.step, base_env.step_forward.
      ok_step Hflags. unfold base_env.robot_set_action. rewrite Hi.
      cbn [mbind Result_bind]. unfold base_env._phys_steps_on_frame.
      cbn [base_env.config base_env.set_entities].
      apply Qeq_bool_iff in Hfps. rewrite Hfps. reflexivity.
Qed.

Lemma phys_steps_on_frame_trace (self : base_env.BaseEnv E) :
  ~ (base_env.fps (base_env.config self) == 0)%Q ->
  exists self',
    base_env._phys_steps_on_frame self = Ok self' /\
    base_env.carries self self' (base_env._episode_steps self) /\
    base_env.viewer self' = base_env.viewer self /\
    length (base_env._entities self') = length (base_env._entities self) /\
    base_env.calls self'
    = base_env.calls self
      ++ base_env.frame_calls (length (base_env._entities self))
                              (base_env.frame_dt self).
Proof.
  intros Hfps. unfold base_env._phys_steps_on_frame.
  destruct (Qeq_bool (base_env.fps (base_env.config self)) 0) eqn:Efps.
  - apply Qeq_bool_iff in Efps. contradiction.
  - cbn [mbind Result_bind]. eexists. split; [reflexivity|].
    match goal with
    | |- base_env.carries _ (Nat.iter ?k (base_env.phys_substep ?dt) _) _ /\ _ =>
        destruct (phys_substeps_calls dt k self)
          as (Hcalls & Hl & Hc & Hr & Hs & Hv)
    end.
    split; [repeat split; assumption|].
    split; [exact Hv|]. split; [exact Hl|]. exact Hcalls.
Qed.

Lemma step_forward_trace (self : base_env.BaseEnv E) (action : Z) :
  base_env.valid_action action ->
  is_Some (base_env._robot self) ->
  ~ (base_env.fps (base_env.config self) == 0)%Q ->
  exists self',
    base_env.step_forward self action = Ok self' /\
    base_env.carries self self' (base_env._episode_steps self + 1) /\
    base_env.viewer self' = base_env.viewer self /\
    length (base_env._entities self') = length (base_env._entities self) /\
    base_env.calls self'
    = base_env.calls self
      ++ base_env.frame_calls (length (base_env._entities self))
                              (base_env.frame_dt self).
Proof.
  intros Ha [i Hi] Hfps. unfold base_env.step_forward.
  destruct (action_to_flags_valid action Ha) as [[[ud lr] grip] Hflags].
  ok_step Hflags. unfold base_env.robot_set_action. rewrite Hi.
  cbn [mbind Result_bind].
  match goal with
  | |- context [base_env._phys_steps_on_frame ?s] =>
      destruct (phys_steps_on_frame_trace s Hfps)
        as (s' & Hs' & (Hc & Hr & Hk) & Hv & Hl & Hcalls)
  end.
  ok_step Hs'. exists (base_env.set_episode_steps s'
                         (base_env._episode_steps s' + 1)).
  split; [reflexivity|].
  cbn [base_env.calls base_env._entities base_env.config base_env._robot
       base_env._episode_steps base_env.viewer base_env.set_entities]
    in Hc, Hr, Hk, Hv, Hl, Hcalls.
  rewrite length_alter in Hl, Hcalls.
  unfold base_env.carries.
  cbn [base_env.calls base_env._entities base_env.config base_env._robot
       base_env._episode_steps base_env.viewer base_env.set_episode_steps].
  rewrite Hc, Hr, Hk, Hv, Hl.
  split; [repeat split|]. split; [reflexivity|]. split; [reflexivity|].
  exact Hcalls.
Qed.

(** One call of [step], in full. *)
Lemma step_cases (self : base_env.BaseEnv E) (action : Z) :
  base_env.valid_action action ->
  is_Some (base_env._robot self) ->
  ~ (base_env.fps (base_env.config self) == 0)%Q ->
  exists self1,
    base_env.step_forward self action = Ok self1 /\
    let k := base_env._episode_steps self + 1 in
    let done :=
      match base_env.max_episode_steps (base_env.config self) with
      | Some N => N <=? k
      | None => false
      end in
    let score :=
      if done then base_env.score_on_end_of_traj self1 else 0%Q in
    ((0 <= score <= 1)%Q ->
     exists obs self',
       base_env.step self action
       = Ok ((obs, 0%Q, done, {[ "eval_score" := score ]}), self') /\
       base_env.carries self self' k /\
       (obs = None <-> base_env.viewer self = None) /\
       (base_env.viewer self' = None <-> base_env.viewer self = None) /\
       length (base_env._entities self')
       = length (base_env._entities self) /\
       base_env.calls self'
       = base_env.calls self
         ++ base_env.frame_calls (length (base_env._entities self))
                                 (base_env.frame_dt self)) /\
    (~ (0 <= score <= 1)%Q ->
     base_env.step self action = Raise AssertionError).
Proof.
  intros Ha Hrobot Hfps.
  destruct (step_forward_trace self action Ha Hrobot Hfps)
    as (self1 & Hf & (Hc1 & Hr1 & Hk1) & Hv1 & Hl1 & Hcalls1).
  exists self1. split; [exact Hf|]. intros k done score.
  unfold base_env.step. ok_step Hf. rewrite Hc1, Hk1.
  fold k. cbn [orb].
  replace (match base_env.max_episode_steps (base_env.config self) with
           | Some n => n <=? k
           | None => false
           end) with done by reflexivity.
  destruct (render_rgb_array_keeps self1)
    as (obs & self2 & Hrender & (Hc2 & Hr2 & Hk2) & Hobs & Hv2 & Hl2 & Hcalls2).
  split.
  - intros [H0 H1]. subst score. destruct done.
    + apply Qle_bool_iff in H0, H1. rewrite H0, H1.
      cbn [andb py_assert mbind Result_bind]. ok_step Hrender.
      exists obs, self2. rewrite insert_empty. split; [reflexivity|].
      rewrite <- Hv1. unfold base_env.carries.
      repeat split; try tauto; try congruence. unfold k. congruence.
    + cbn [mbind Result_bind]. ok_step Hrender.
      exists obs, self2. rewrite insert_empty. split; [reflexivity|].
      rewrite <- Hv1. unfold base_env.carries.
      repeat split; try tauto; try congruence. unfold k. congruence.
  - intros Hout. subst score. destruct done.
    + destruct (Qle_bool 0 (base_env.score_on_end_of_traj self1)
                && Qle_bool (base_env.score_on_end_of_traj self1) 1) eqn:Eb;
        [|reflexivity].
      apply andb_true_iff in Eb. destruct Eb as [H0 H1].
      apply Qle_bool_iff in H0, H1. exfalso. apply Hout. split; assumption.
    + exfalso. apply Hout. split; [apply Qle_refl | discriminate].
Qed.

(** A rollout over valid actions, in an environment whose scenario scores
    within [0, 1] or which has no episode length. *)
Lemma rollout_runs (actions : list Z) :
  forall self : base_env.BaseEnv E,
    Forall base_env.valid_action actions ->
    is_Some (base_env._robot self) ->
    ~ (base_env.fps (base_env.config self) == 0)%Q ->
    base_env.max_episode_steps (base_env.config self) = None \/
    (forall env, (0 <= base_env.score_on_end_of_traj env <= 1)%Q) ->
    exists rets self',
      base_env.rollout self actions = Ok (rets, self') /\
      length rets = length actions /\
      base_env.carries self self'
        (base_env._episode_steps self + Z.of_nat (length actions)) /\
      (base_env.viewer self' = None <-> base_env.viewer self = None) /\
      length (base_env._entities self') = length (base_env._entities self) /\
      base_env.calls self'
      = base_env.calls self
        ++ concat (replicate (length actions)
                     (base_env.frame_calls (length (base_env._entities self))
                                           (base_env.frame_dt self))) /\
      forall (i : nat) (ret : base_env.StepReturn),
        rets !! i = Some ret ->
        base_env.ret_reward ret = 0%Q /\
        base_env.ret_done ret
        = match base_env.max_episode_steps (base_env.config self) with
          | Some N => N <=? base_env._episode_steps self + Z.of_nat i + 1
          | None => false
          end /\
        (base_env.ret_obs ret = None <-> base_env.viewer self = None) /\
        exists score : Q,
          base_env.ret_info ret = {[ "eval_score" := score ]} /\
          (0 <= score <= 1)%Q /\
          (base_env.ret_done ret = false -> score = 0%Q).
Proof.
  induction actions as [|action actions IH];
    intros self Hvalid Hrobot Hfps Hscore.
  - exists [], self. split; [reflexivity|]. split; [reflexivity|].
    split; [cbn; rewrite Z.add_0_r; repeat split|]. split; [tauto|].
    split; [reflexivity|]. split; [cbn; rewrite app_nil_r; reflexivity|].
    intros i ret Hi. rewrite lookup_nil in Hi. discriminate.
  - inversion Hvalid as [|? ? Ha Hrest]; subst.
    cbn [base_env.rollout].
    destruct (step_cases self action Ha Hrobot Hfps)
      as (self0 & _ & Hin & _). cbv zeta in Hin.
    destruct Hin as (obs & self1 & Hstep & (Hc1 & Hr1 & Hk1) & Hobs1 & Hv1
                     & Hl1 & Hcalls1).
    { destruct Hscore as [Hnone|Hrange].
      - rewrite Hnone. split; [apply Qle_refl | discriminate].
      - destruct (match base_env.max_episode_steps (base_env.config self) with
                  | Some N => N <=? base_env._episode_steps self + 1
                  | None => false
                  end); [apply Hrange|].
        split; [apply Qle_refl | discriminate]. }
    ok_step Hstep.
    destruct (IH self1) as (rets & self2 & Hroll & Hlen & (Hc2 & Hr2 & Hk2)
                            & Hv2 & Hl2 & Hcalls2 & Hrets).
    + exact Hrest.
    + rewrite Hr1. exact Hrobot.
    + rewrite Hc1. exact Hfps.
    + rewrite Hc1. exact Hscore.
    + ok_step Hroll. eexists _, self2. split; [reflexivity|].
      split; [cbn; lia|]. split; [|split; [|split; [|split]]].
      * unfold base_env.carries. rewrite Hc2, Hr2, Hk2, Hk1. cbn [length].
        repeat split; try assumption. lia.
      * tauto.
      * lia.
      * rewrite Hcalls2, Hcalls1, Hl1. unfold base_env.frame_dt.
        rewrite Hc1. cbn [length replicate concat].
        rewrite <- app_assoc. reflexivity.
      * intros [|i] ret Hi.
        -- injection Hi as <-. cbn. rewrite Z.add_0_r.
           split; [reflexivity|]. split; [reflexivity|].
           split; [exact Hobs1|]. eexists. split; [reflexivity|].
           destruct (match base_env.max_episode_steps (base_env.config self) with
                     | Some N => N <=? base_env._episode_steps self + 1
                     | None => false
                     end) eqn:Edone.
           ++ destruct Hscore as [Hnone|Hrange].
              ** rewrite Hnone in Edone. discriminate.
              ** split; [apply Hrange | discriminate].
           ++ split; [|reflexivity]. split; [apply Qle_refl | discriminate].
        -- cbn in Hi. destruct (Hrets i ret Hi) as (Hrew & Hdone & Hobs & Hinfo).
           split; [exact Hrew|]. split; [|split].
           ++ rewrite Hdone, Hc1, Hk1.
              replace (base_env._episode_steps self + 1 + Z.of_nat i + 1)
                with (base_env._episode_steps self + Z.of_nat (S i) + 1)
                by lia.
              reflexivity.
           ++ tauto.
           ++ exact Hinfo.
Qed.

(** X14.  Without an episode length ([max_episode_steps = None]) an
    episode never ends: every step of any sequence of valid actions
    returns reward 0, done = False and an [eval_score] of 0, and the step
    counter counts them all.  The score of the scenario is never asked
    for, so a scenario whose score lies outside [0, 1] makes no step
    fail. *)
Theorem rollout_without_limit_never_done (self : base_env.BaseEnv E)
    (actions : list Z) :
  base_env.max_episode_steps (base_env.config self) = None ->
  Forall base_env.valid_action actions ->
  is_Some (base_env._robot self) ->
  ~ (base_env.fps (base_env.config self) == 0)%Q ->
  exists rets self',
    base_env.rollout self actions = Ok (rets, self') /\
    length rets = length actions /\
    Forall (fun ret : base_env.StepReturn =>
              base_env.ret_reward ret = 0%Q /\
              base_env.ret_done ret = false /\
              base_env.ret_info ret = {[ "eval_score" := 0%Q ]})
           rets /\
    base_env._episode_steps self'
    = base_env._episode_steps self + Z.of_nat (length actions).
Proof.
  intros Hnone Hvalid Hrobot Hfps.
  destruct (rollout_runs actions self Hvalid Hrobot Hfps (or_introl Hnone))
    as (rets & self' & Hroll & Hlen & (_ & _ & Hk) & _ & _ & _ & Hrets).
  exists rets, self'. split; [exact Hroll|]. split; [exact Hlen|].
  split; [|exact Hk]. apply Forall_lookup. intros i ret Hi.
  destruct (Hrets i ret Hi) as (Hrew & Hdone & _ & score & Hinfo & _ & Hzero).
  rewrite Hnone in Hdone. split; [exact Hrew|]. split; [exact Hdone|].
  rewrite Hinfo, (Hzero Hdone). reflexivity.
Qed.

(** X15.  [step] goes on after the end of an episode.  With an episode
    length N and a scenario whose score always lies in [0, 1], any
    sequence of valid actions runs through; the return of step number i
    (counting from the step counter at the start) has done = True exactly
    when the counter has reached N, so once a step has returned done every
    later one does, each with a score within [0, 1]; a step that is not
    done reports 0. *)
Theorem done_from_the_limit_on (self : base_env.BaseEnv E) (N : Z)
    (actions : list Z) :
  base_env.max_episode_steps (base_env.config self) = Some N ->
  (forall env, (0 <= base_env.score_on_end_of_traj env <= 1)%Q) ->
  Forall base_env.valid_action actions ->
  is_Some (base_env._robot self) ->
  ~ (base_env.fps (base_env.config self) == 0)%Q ->
  exists rets self',
    base_env.rollout self actions = Ok (rets, self') /\
    length rets = length actions /\
    (forall (i : nat) (ret : base_env.StepReturn),
       rets !! i = Some ret ->
       (base_env.ret_done ret = true
        <-> N <= base_env._episode_steps self + Z.of_nat i + 1) /\
       exists score : Q,
         base_env.ret_info ret = {[ "eval_score" := score ]} /\
         (0 <= score <= 1)%Q /\
         (base_env.ret_done ret = false -> score = 0%Q)) /\
    (forall (i j : nat) (ret_i ret_j : base_env.StepReturn),
       (i <= j)%nat -> rets !! i = Some ret_i -> rets !! j = Some ret_j ->
       base_env.ret_done ret_i = true -> base_env.ret_done ret_j = true).
Proof.
  intros HN Hrange Hvalid Hrobot Hfps.
  destruct (rollout_runs actions self Hvalid Hrobot Hfps (or_intror Hrange))
    as (rets & self' & Hroll & Hlen & _ & _ & _ & _ & Hrets).
  exists rets, self'. split; [exact Hroll|]. split; [exact Hlen|].
  assert (Hdone : forall (i : nat) (ret : base_env.StepReturn),
            rets !! i = Some ret ->
            base_env.ret_done ret = true
            <-> N <= base_env._episode_steps self + Z.of_nat i + 1).
  { intros i ret Hi. destruct (Hrets i ret Hi) as (_ & Hd & _).
    rewrite HN in Hd. rewrite Hd. apply Z.leb_le. }
  split.
  - intros i ret Hi. split; [apply Hdone; exact Hi|].
    destruct (Hrets i ret Hi) as (_ & _ & _ & Hinfo). exact Hinfo.
  - intros i j ret_i ret_j Hij Hi Hj Hd.
    apply (Hdone i ret_i Hi) in Hd. apply (Hdone j ret_j Hj). lia.
Qed.

(** X16.  The calls of a rollout.  Over valid actions, in an environment
    without an episode length or whose scenario scores within [0, 1],
    every [step] runs one frame of physics: n steps add n times the
    calls of one frame (ten rounds of [update(dt)] on each entity in
    order, then [space.step(dt)], dt = 1/fps/10) to the calls made so
    far, and nothing else; no entity is added or removed, the robot
    reference and the configuration stay, the counter advances by n. *)
Theorem rollout_call_trace (self : base_env.BaseEnv E) (actions : list Z) :
  Forall base_env.valid_action actions ->
  is_Some (base_env._robot self) ->
  ~ (base_env.fps (base_env.config self) == 0)%Q ->
  base_env.max_episode_steps (base_env.config self) = None \/
  (forall env, (0 <= base_env.score_on_end_of_traj env <= 1)%Q) ->
  exists rets self',
    base_env.rollout self actions = Ok (rets, self') /\
    base_env.calls self'
    = base_env.calls self
      ++ concat (replicate (length actions)
                   (base_env.frame_calls (length (base_env._entities self))
                                         (base_env.frame_dt self))) /\
    length (base_env._entities self') = length (base_env._entities self) /\
    base_env._robot self' = base_env._robot self /\
    base_env.config self' = base_env.config self /\
    base_env._episode_steps self'
    = base_env._episode_steps self + Z.of_nat (length actions).
Proof.
  intros Hvalid Hrobot Hfps Hscore.
  destruct (rollout_runs actions self Hvalid Hrobot Hfps Hscore)
    as (rets & self' & Hroll & _ & (Hc & Hr & Hk) & _ & Hl & Hcalls & _).
  exists rets, self'. repeat split; assumption.
Qed.

(** X17.  Stepping a closed environment.  After [close], [step] still
    runs (valid actions, a robot, a frame rate other than zero, no
    episode length or scores within [0, 1]): every return carries the
    observation [None], and no viewer comes back; only [reset] makes a
    new one. *)
Theorem step_after_close_is_blind (self : base_env.BaseEnv E)
    (actions : list Z) :
  Forall base_env.valid_action actions ->
  is_Some (base_env._robot self) ->
  ~ (base_env.fps (base_env.config self) == 0)%Q ->
  base_env.max_episode_steps (base_env.config self) = None \/
  (forall env, (0 <= base_env.score_on_end_of_traj env <= 1)%Q) ->
  exists rets self',
    base_env.rollout (base_env.close self) actions = Ok (rets, self') /\
    length rets = length actions /\
    Forall (fun ret : base_env.StepReturn => base_env.ret_obs ret = None)
           rets /\
    base_env.viewer self' = None.
Proof.
  intros Hvalid Hrobot Hfps Hscore.
  assert (Hclosed : base_env.viewer (base_env.close self) = None /\
                    base_env.config (base_env.close self)
                    = base_env.config self /\
                    base_env._robot (base_env.close self)
                    = base_env._robot self).
  { unfold base_env.close.
    destruct (base_env.viewer self) eqn:Hv; cbn; rewrite ?Hv; repeat split. }
  destruct Hclosed as (Hv & Hc & Hr).
  destruct (rollout_runs actions (base_env.close self) Hvalid)
    as (rets & self' & Hroll & Hlen & _ & Hv' & _ & _ & Hrets).
  - rewrite Hr. exact Hrobot.
  - rewrite Hc. exact Hfps.
  - rewrite Hc. exact Hscore.
  - exists rets, self'. split; [exact Hroll|]. split; [exact Hlen|].
    split; [|apply Hv'; exact Hv].
    apply Forall_lookup. intros i ret Hi.
    destruct (Hrets i ret Hi) as (_ & _ & Hobs & _). apply Hobs. exact Hv.
Qed.

End SteppingFurther.

(** Three steps without an episode length, under a scenario whose score
    would be 7: none fails, the counter stands at 3. *)
Lemma rollout_without_limit_never_done_witness :
  let EM := en_module Fixtures.colours Fixtures.upright in
  let BE := Fixtures.still en.Entity in
  let SC := Fixtures.scenario (E0 := en.EntityNew) (E := en.Entity) [] 7 in
  exists rets self',
    base_env.rollout Fixtures.env_without_limit [1; 0; 17] = Ok (rets, self') /\
    length rets = 3%nat /\
    base_env._episode_steps self' = 3.
Proof.
  intros EM BE SC.
  assert (Hvalid : Forall base_env.valid_action [1; 0; 17]).
  { repeat constructor; unfold base_env.valid_action; cbn; lia. }
  destruct (rollout_without_limit_never_done (EM := EM) (BE := BE) (SC := SC)
              Fixtures.env_without_limit [1; 0; 17] eq_refl Hvalid
              (ex_intro _ 1%nat eq_refl) ltac:(discriminate))
    as (rets & self' & Hroll & Hlen & _ & Hk).
  exists rets, self'. split; [exact Hroll|]. split; [exact Hlen | exact Hk].
Defined.

(** Three steps in episodes of two: the second and the third return
    done = True. *)
Lemma done_from_the_limit_on_witness :
  let EM := en_module Fixtures.colours Fixtures.upright in
  let BE := Fixtures.still en.Entity in
  let SC :=
    Fixtures.scenario (E0 := en.EntityNew) (E := en.Entity) [] (1 # 2) in
  exists rets self',
    base_env.rollout Fixtures.env [1; 0; 3] = Ok (rets, self') /\
    length rets = 3%nat /\
    forall ret, rets !! 2%nat = Some ret -> base_env.ret_done ret = true.
Proof.
  intros EM BE SC.
  assert (Hvalid : Forall base_env.valid_action [1; 0; 3]).
  { repeat constructor; unfold base_env.valid_action; cbn; lia. }
  assert (Hrange : forall env : base_env.BaseEnv en.Entity,
            (0 <= base_env.score_on_end_of_traj env <= 1)%Q).
  { intros env. split; discriminate. }
  assert (Hfps : ~ (base_env.fps (base_env.config Fixtures.env) == 0)%Q)
    by discriminate.
  destruct (done_from_the_limit_on (EM := EM) (BE := BE) (SC := SC)
              Fixtures.env 2 [1; 0; 3] eq_refl Hrange
              Hvalid (ex_intro _ 1%nat eq_refl) Hfps)
    as (rets & self' & Hroll & Hlen & Hdone & _).
  exists rets, self'. split; [exact Hroll|]. split; [exact Hlen|].
  intros ret Hret. apply (Hdone 2%nat ret Hret). cbn. lia.
Defined.

(** One step of the example environment (arena and robot, 20 frames per
    second): the calls are those of one frame over two entities, with
    dt = 1/200. *)
Lemma rollout_call_trace_witness :
  let EM := en_module Fixtures.colours Fixtures.upright in
  let BE := Fixtures.still en.Entity in
  let SC :=
    Fixtures.scenario (E0 := en.EntityNew) (E := en.Entity) [] (1 # 2) in
  exists rets self',
    base_env.rollout Fixtures.env [1] = Ok (rets, self') /\
    base_env.calls self'
    = concat (replicate 10
                [base_env.CallUpdate 0 (1 / 20 / inject_Z 10)%Q;
                 base_env.CallUpdate 1 (1 / 20 / inject_Z 10)%Q;
                 base_env.CallSpaceStep (1 / 20 / inject_Z 10)%Q]).
Proof.
  intros EM BE SC.
  assert (Hvalid : Forall base_env.valid_action [1]).
  { repeat constructor; unfold base_env.valid_action; cbn; lia. }
  assert (Hrange : forall env : base_env.BaseEnv en.Entity,
            (0 <= base_env.score_on_end_of_traj env <= 1)%Q).
  { intros env. split; discriminate. }
  assert (Hfps : ~ (base_env.fps (base_env.config Fixtures.env) == 0)%Q)
    by discriminate.
  destruct (rollout_call_trace (EM := EM) (BE := BE) (SC := SC)
              Fixtures.env [1] Hvalid (ex_intro _ 1%nat eq_refl)
              Hfps (or_intror Hrange))
    as (rets & self' & Hroll & Hcalls & _).
  exists rets, self'. split; [exact Hroll|]. rewrite Hcalls. reflexivity.
Defined.

(** The example environment, closed and stepped twice. *)
Lemma step_after_close_is_blind_witness :
  let EM := en_module Fixtures.colours Fixtures.upright in
  let BE := Fixtures.still en.Entity in
  let SC :=
    Fixtures.scenario (E0 := en.EntityNew) (E := en.Entity) [] (1 # 2) in
  exists rets self',
    base_env.rollout (base_env.close Fixtures.env) [1; 0] = Ok (rets, self') /\
    Forall (fun ret : base_env.StepReturn => base_env.ret_obs ret = None)
           rets.
Proof.
  intros EM BE SC.
  assert (Hvalid : Forall base_env.valid_action [1; 0]).
  { repeat constructor; unfold base_env.valid_action; cbn; lia. }
  assert (Hrange : forall env : base_env.BaseEnv en.Entity,
            (0 <= base_env.score_on_end_of_traj env <= 1)%Q).
  { intros env. split; discriminate. }
  assert (Hfps : ~ (base_env.fps (base_env.config Fixtures.env) == 0)%Q)
    by discriminate.
  destruct (step_after_close_is_blind (EM := EM) (BE := BE) (SC := SC)
              Fixtures.env [1; 0] Hvalid (ex_intro _ 1%nat eq_refl)
              Hfps (or_intror Hrange))
    as (rets & self' & Hroll & _ & Hobs & _).
  exists rets, self'. split; assumption.
Defined.

(** ** The keyboard of the demonstration loop *)

Lemma keyboard_flag_bits (key_map : main.Keys) :
  let flag := base_env.action_flag (main.act_flags key_map) in
  en.flag_set flag en.RobotAction.UP
  = main.key_UP key_map && negb (main.key_DOWN key_map) /\
  en.flag_set flag en.RobotAction.DOWN
  = main.key_DOWN key_map && negb (main.key_UP key_map) /\
  en.flag_set flag en.RobotAction.LEFT
  = main.key_LEFT key_map && negb (main.key_RIGHT key_map) /\
  en.flag_set flag en.RobotAction.RIGHT
  = main.key_RIGHT key_map && negb (main.key_LEFT key_map) /\
  en.flag_set flag en.RobotAction.OPEN = negb (main.key_SPACE key_map) /\
  en.flag_set flag en.RobotAction.CLOSE = main.key_SPACE key_map.
Proof.
  destruct key_map as [[] [] [] [] []]; vm_compute; repeat split.
Qed.

(** X19.  From the keys held down to the robot.  The flag triple the
    loop of [main] builds is always one of the action table, so
    [flags_to_action] returns an action index that [action_to_flags]
    decodes to the same triple.  Set on a robot the way [step] does, it
    makes the robot drive forward at 4 radii only when UP is held without
    DOWN, backward at 3 radii only when DOWN is held without UP, and
    stand still otherwise; likewise it turns by +1.5 for LEFT without
    RIGHT and -1.5 for RIGHT without LEFT; and every step sets the finger
    target: closed while SPACE is held, open otherwise. *)
Theorem keyboard_drives_robot (key_map : main.Keys) (self : en.Robot.t) :
  let flags := main.act_flags key_map in
  let after := en.Robot.set_action self (base_env.action_flag flags) in
  (exists action : Z,
     main.key_action key_map = Ok action /\
     base_env.valid_action action /\
     base_env.action_to_flags action = Ok flags) /\
  (en.Robot.target_speed (en.Robot.attrs after)
   == if main.key_UP key_map && negb (main.key_DOWN key_map)
      then 4 * en.Robot.radius (en.Robot.attrs self)
      else if main.key_DOWN key_map && negb (main.key_UP key_map)
      then - (3 * en.Robot.radius (en.Robot.attrs self))
      else 0)%Q /\
  (en.Robot.rel_turn_angle (en.Robot.attrs after)
   == if main.key_LEFT key_map && negb (main.key_RIGHT key_map)
      then 3 # 2
      else if main.key_RIGHT key_map && negb (main.key_LEFT key_map)
      then - (3 # 2)
      else 0)%Q /\
  en.Robot.target_finger_angle (en.Robot.rig after)
  = (if main.key_SPACE key_map
     then - en.Robot.finger_rot_limit_inner (en.Robot.attrs self)
     else en.Robot.finger_rot_limit_outer (en.Robot.attrs self))%Q.
Proof.
  intros flags after. split.
  - subst flags. unfold main.key_action.
    destruct key_map as [[] [] [] [] []];
      (eexists; split; [vm_compute; reflexivity|];
       split; [unfold base_env.valid_action; cbn; lia
              | vm_compute; reflexivity]).
  - destruct (keyboard_flag_bits key_map)
      as (Hup & Hdown & Hleft & Hright & Hopen & Hclose).
    cbv zeta in Hup, Hdown, Hleft, Hright, Hopen, Hclose.
    subst after flags. unfold en.Robot.set_action.
    rewrite Hup, Hdown, Hleft, Hright, Hopen, Hclose.
    cbn [en.Robot.attrs en.Robot.rig en.Robot.set_targets
         en.Robot.set_target_finger_angle en.Robot.target_speed
         en.Robot.rel_turn_angle en.Robot.target_finger_angle].
    destruct key_map as [[] [] [] [] []];
      cbn [main.key_UP main.key_DOWN main.key_LEFT main.key_RIGHT
           main.key_SPACE andb negb];
      (split; [ring|]); (split; [ring | reflexivity]).
Qed.
